(** * SCSI CDROM (type 5) dev handler: scst_cdrom.c

    A shallow embedding of the handler callbacks [cdrom_attach],
    [cdrom_detach], [cdrom_parse], [cdrom_get_block_shift] and
    [cdrom_set_block_shift], over an explicit kernel state: a heap of
    allocated objects, a plan of allocation failures, the state of the
    SCSI transport and a trace of the calls made to the collaborators.

    The diagnostic macros (the TRACE and PRINT families) write to the kernel
    log only and are left out; everything else follows the C text statement by
    statement. *)

From stdpp Require Import gmap list.
From Stdlib Require Import ZArith Lia.
From Stdlib.Strings Require Import Byte.

Local Open Scope Z_scope.

(** ** Machine integers and bytes *)

(** [int] is 32 bits wide; the kernel is built with wrapping signed
    arithmetic. *)
Definition wrap_int (z : Z) : Z := (z + 2 ^ 31) mod 2 ^ 32 - 2 ^ 31.

(** The value of a [uint8_t] after integer promotion. *)
Definition byte_val (b : byte) : Z := Z.of_N (Byte.to_N b).

(** Conversion of an [int] to [uint8_t] on assignment. *)
Definition to_u8 (z : Z) : byte :=
  match Byte.of_N (Z.to_N (z mod 256)) with
  | Some b => b
  | None => x00
  end.

(** ** Constants *)

(** [#define CDROM_DEF_BLOCK_SHIFT 11] *)
Definition CDROM_DEF_BLOCK_SHIFT : Z := 11.

(** [const int buffer_size = 512;] in [cdrom_attach]. *)
Definition buffer_size : nat := 512.

(** Linux errno values and SCSI constants used by the handler
    (errno-base.h, scsi/scsi.h). *)
Definition ENOMEM : Z := 12.
Definition ENODEV : Z := 19.
Definition READ_CAPACITY : Z := 37.
Definition SCSI_2 : Z := 3.

(** ** Data *)

Definition addr := positive.

(** [struct cdrom_params { int block_shift; };] *)
Record cdrom_params := mk_cdrom_params { block_shift : Z }.

(** What a live allocation holds: a [struct cdrom_params], a byte buffer
    with known content, or memory fresh from [kmalloc]. *)
Inductive obj :=
| ObjParams (r : cdrom_params)
| ObjBuffer (bytes : list byte)
| ObjUninit (size : nat).

(** The fields of [struct scsi_device] the handler reads. *)
Record scsi_device := mk_scsi_device {
  sd_type : Z;
  scsi_level : Z;
  lun : Z
}.

(** The fields of [struct scst_device] the handler uses; a NULL pointer is
    [None]. *)
Record scst_device := mk_scst_device {
  scsi_dev : option scsi_device;
  dev_type : Z;
  dh_priv : option addr
}.

Definition set_dh_priv (p : option addr) (dev : scst_device) : scst_device :=
  {| scsi_dev := scsi_dev dev; dev_type := dev_type dev; dh_priv := p |}.

(** The fields of [struct scst_cmd] the handler uses.  [cmd->dev] is the
    device the command was queued on; [bufflen] stands for the fields the
    generic parser maintains. *)
Record scst_cmd := mk_scst_cmd {
  dev : scst_device;
  retries : Z;
  bufflen : Z
}.

Definition set_retries (n : Z) (cmd : scst_cmd) : scst_cmd :=
  {| dev := dev cmd; retries := n; bufflen := bufflen cmd |}.

(** What [scsi_execute] hands back: its return code, the bytes it
    transferred into the data buffer and the content of the sense buffer
    after the call. *)
Record exec_reply := mk_exec_reply {
  rc : Z;
  data : list byte;
  sense : list byte
}.

(** Calls observed at the boundary of the handler. *)
Inductive event :=
| Ev_alloc (size : nat) (r : option addr)
| Ev_free (a : addr)
| Ev_exec (cdb : list byte)
| Ev_store (a : addr) (v : Z)
| Ev_sync.

Definition is_alloc (e : event) : bool :=
  match e with Ev_alloc _ _ => true | _ => false end.

Definition is_exec (e : event) : bool :=
  match e with Ev_exec _ => true | _ => false end.

(** Number of allocation requests and of capacity queries in a trace. *)
Definition allocations (tr : list event) : nat :=
  length (List.filter is_alloc tr).

Definition attempts (tr : list event) : nat :=
  length (List.filter is_exec tr).

(** How the handler left the [while (1)] loop of [cdrom_attach]: through
    [break] with the last return code, or through the [goto out_free_buf]
    taken when the retry budget is used up. *)
Inductive loop_exit :=
| Break (rc : Z)
| Exhausted.

(** ** The framework the handler is linked against

    scst.h and the SCST core are not part of this file: their constants
    and entry points are the fields of this interface.
    [scst_analyze_sense] is the call made by the handler, with the
    arguments SCST_SENSE_KEY_VALID, UNIT_ATTENTION, 0, 0 fixed. *)
Class Framework := {
  SCST_DEV_UA_RETRIES : Z;
  SCST_PASSTHROUGH_RETRIES : Z;
  SCST_CMD_STATE_DEFAULT : Z;
  transport : Type;
  scsi_execute : scsi_device -> list byte -> transport -> exec_reply * transport;
  scst_analyze_sense : list byte -> bool;
  scst_calc_block_shift : Z -> Z;
  scst_obtain_device_parameters : scst_device -> transport -> Z * transport
}.

(** Modelled from the spec: scst_calc_block_shift (DeriveBlockShift) lives
    in the SCST core, which is missing here.  The spec asks that, for every
    sector size that is an exact power of two in [512, 65536],
    DeriveBlockShift followed by 2^exponent reconstructs the original size
    exactly. *)
Definition DeriveBlockShift_spec (derive : Z -> Z) : Prop :=
  forall e : Z, 9 <= e <= 16 -> 2 ^ derive (2 ^ e) = 2 ^ e.

Section Handler.

Context `{F : Framework}.

(** ** Kernel state *)

Record kernel := mk_kernel {
  heap : gmap addr obj;
  alloc_plan : list bool;
  link : transport;
  trace : list event
}.

Definition set_heap (h : gmap addr obj) (k : kernel) : kernel :=
  {| heap := h; alloc_plan := alloc_plan k; link := link k; trace := trace k |}.

Definition emit (e : event) (k : kernel) : kernel :=
  {| heap := heap k; alloc_plan := alloc_plan k; link := link k;
     trace := e :: trace k |}.

(** Computations over the kernel state; [None] is a memory fault (or, for
    the probe loop, an exhausted iteration bound of the model). *)
Definition M (A : Type) : Type := kernel -> option (A * kernel).

Definition ret {A : Type} (a : A) : M A := fun k => Some (a, k).

Definition bind {A B : Type} (m : M A) (f : A -> M B) : M B :=
  fun k => match m k with
           | Some (a, k') => f a k'
           | None => None
           end.

Definition fault {A : Type} : M A := fun _ => None.

Notation "x <~ m ;; f" := (bind m (fun x => f))
  (at level 65, m at next level, right associativity).
Notation "m ;;; f" := (bind m (fun _ => f))
  (at level 65, right associativity).

(** ** Kernel services *)

(** [kzalloc]/[kmalloc]: the head of the plan tells whether this request
    fails (an empty plan has no failures left); NULL on failure, otherwise
    a fresh address holding [o]. *)
Definition alloc (size : nat) (o : obj) : M (option addr) :=
  fun k =>
    if hd false (alloc_plan k) then
      Some (None, {| heap := heap k; alloc_plan := tl (alloc_plan k);
                     link := link k;
                     trace := Ev_alloc size None :: trace k |})
    else
      let a := fresh (dom (heap k)) in
      Some (Some a, {| heap := <[a := o]> (heap k);
                       alloc_plan := tl (alloc_plan k);
                       link := link k;
                       trace := Ev_alloc size (Some a) :: trace k |}).

(** [kzalloc(sizeof(struct cdrom_params), GFP_KERNEL)]: zeroed memory. *)
Definition kzalloc_params : M (option addr) :=
  alloc 4 (ObjParams {| block_shift := 0 |}).

(** [kmalloc(size, GFP_KERNEL)]. *)
Definition kmalloc (size : nat) : M (option addr) :=
  alloc size (ObjUninit size).

(** [kfree]: nothing for NULL, a fault for a pointer that is not live. *)
Definition kfree (p : option addr) : M unit :=
  fun k =>
    match p with
    | None => Some (tt, k)
    | Some a =>
      match heap k !! a with
      | Some _ => Some (tt, emit (Ev_free a) (set_heap (delete a (heap k)) k))
      | None => None
      end
    end.

(** [memset(buffer, 0, size)]. *)
Definition memset_zero (a : addr) (size : nat) : M unit :=
  fun k =>
    match heap k !! a with
    | Some (ObjBuffer _) | Some (ObjUninit _) =>
      Some (tt, set_heap (<[a := ObjBuffer (replicate size x00)]> (heap k)) k)
    | _ => None
    end.

(** [buffer[i]]. *)
Definition load_byte (a : addr) (i : nat) : M byte :=
  fun k =>
    match heap k !! a with
    | Some (ObjBuffer bytes) =>
      match bytes !! i with
      | Some b => Some (b, k)
      | None => None
      end
    | _ => None
    end.

(** [params->block_shift]. *)
Definition load_block_shift (p : option addr) : M Z :=
  fun k =>
    match p with
    | Some a =>
      match heap k !! a with
      | Some (ObjParams r) => Some (block_shift r, k)
      | _ => None
      end
    | None => None
    end.

(** [params->block_shift = v]. *)
Definition store_block_shift (p : option addr) (v : Z) : M unit :=
  fun k =>
    match p with
    | Some a =>
      match heap k !! a with
      | Some (ObjParams _) =>
        Some (tt, emit (Ev_store a v)
                    (set_heap (<[a := ObjParams {| block_shift := v |}]> (heap k)) k))
      | _ => None
      end
    | None => None
    end.

(** The bytes of a zeroed buffer of [size] bytes after a transfer of
    [d] into it. *)
Definition overlay (size : nat) (d : list byte) : list byte :=
  take size (d ++ replicate size x00).

(** [rc = scsi_execute(dev->scsi_dev, cmd, data_dir, buffer, buffer_size,
    sense_buffer, ...)] on a buffer and a sense buffer that were just
    zeroed. *)
Definition do_scsi_execute (sdev : scsi_device) (cdb : list byte)
    (buffer : addr) (size : nat) : M (Z * list byte) :=
  fun k =>
    match heap k !! buffer with
    | Some (ObjBuffer _) =>
      let '(reply, link') := scsi_execute sdev cdb (link k) in
      Some ((rc reply, sense reply),
            {| heap := <[buffer := ObjBuffer (overlay size (data reply))]> (heap k);
               alloc_plan := alloc_plan k;
               link := link';
               trace := Ev_exec cdb :: trace k |})
    | _ => None
    end.

(** [res = scst_obtain_device_parameters(dev)]. *)
Definition do_obtain_device_parameters (d : scst_device) : M Z :=
  fun k =>
    let '(res, link') := scst_obtain_device_parameters d (link k) in
    Some (res, {| heap := heap k; alloc_plan := alloc_plan k; link := link';
                  trace := Ev_sync :: trace k |}).

(** ** cdrom_attach *)

(** The command block: [cmd[0] = READ_CAPACITY], [cmd[1]] is
    [(lun << 5) & 0xe0] for devices up to SCSI-2 (the mask keeps bits 5 to
    7, whatever the width of the shift), the other eight bytes are zero. *)
Definition read_capacity_cdb (sdev : scsi_device) : list byte :=
  to_u8 READ_CAPACITY
  :: to_u8 (if scsi_level sdev <=? SCSI_2
            then Z.land (Z.shiftl (lun sdev) 5) 224
            else 0)
  :: replicate 8 x00.

(** [(buffer[4] << 24) | (buffer[5] << 16) | (buffer[6] << 8) | (buffer[7] << 0)]
    as an [int]. *)
Definition sector_size_of (b4 b5 b6 b7 : byte) : Z :=
  wrap_int (Z.lor (Z.lor (Z.lor (Z.shiftl (byte_val b4) 24)
                                (Z.shiftl (byte_val b5) 16))
                         (Z.shiftl (byte_val b6) 8))
                  (Z.shiftl (byte_val b7) 0)).

(** The [while (1)] loop.  [n] bounds the iterations of the model; the
    loop itself leaves through [break] or, once [--retries] reaches zero,
    after storing the default shift, through [goto out_free_buf]. *)
Fixpoint read_capacity_loop (n : nat) (sdev : scsi_device) (cdb : list byte)
    (buffer params : addr) (retries : Z) : M loop_exit :=
  match n with
  | O => fault
  | S n' =>
    memset_zero buffer buffer_size ;;;
    r <~ do_scsi_execute sdev cdb buffer buffer_size ;;
    if (fst r =? 0) || negb (scst_analyze_sense (snd r)) then
      ret (Break (fst r))
    else
      let retries := wrap_int (retries - 1) in
      if retries =? 0 then
        store_block_shift (Some params) CDROM_DEF_BLOCK_SHIFT ;;;
        ret Exhausted
      else
        read_capacity_loop n' sdev cdb buffer params retries
  end.

(** The code between the loop and the label [out_free_buf], up to the call
    of [scst_obtain_device_parameters]. *)
Definition set_probed_shift (exit_rc : Z) (buffer params : addr) : M unit :=
  if exit_rc =? 0 then
    b4 <~ load_byte buffer 4 ;;
    b5 <~ load_byte buffer 5 ;;
    b6 <~ load_byte buffer 6 ;;
    b7 <~ load_byte buffer 7 ;;
    let sector_size := sector_size_of b4 b5 b6 b7 in
    if sector_size =? 0 then
      store_block_shift (Some params) CDROM_DEF_BLOCK_SHIFT
    else
      store_block_shift (Some params) (scst_calc_block_shift sector_size)
  else
    store_block_shift (Some params) CDROM_DEF_BLOCK_SHIFT.

(** Label [out_free_params], falling through to [out]. *)
Definition out_free_params (res : Z) (params : addr) (d : scst_device)
    : M (Z * scst_device) :=
  if res =? 0 then
    ret (res, set_dh_priv (Some params) d)
  else
    kfree (Some params) ;;;
    ret (res, d).

(** Label [out_free_buf], falling through to [out_free_params]. *)
Definition out_free_buf (res : Z) (buffer params : addr) (d : scst_device)
    : M (Z * scst_device) :=
  kfree (Some buffer) ;;;
  out_free_params res params d.

Definition cdrom_attach (n : nat) (d : scst_device) : M (Z * scst_device) :=
  match scsi_dev d with
  | None => ret (- ENODEV, d)
  | Some sdev =>
    if negb (sd_type sdev =? dev_type d) then
      ret (- ENODEV, d)
    else
      params <~ kzalloc_params ;;
      match params with
      | None => ret (- ENOMEM, d)
      | Some params =>
        buffer <~ kmalloc buffer_size ;;
        match buffer with
        | None => out_free_params (- ENOMEM) params d
        | Some buffer =>
          ex <~ read_capacity_loop n sdev (read_capacity_cdb sdev)
                  buffer params SCST_DEV_UA_RETRIES ;;
          match ex with
          | Exhausted => out_free_buf (- ENODEV) buffer params d
          | Break exit_rc =>
            set_probed_shift exit_rc buffer params ;;;
            res <~ do_obtain_device_parameters d ;;
            out_free_buf res buffer params d
          end
        end
      end
  end.

(** ** cdrom_detach *)

Definition cdrom_detach (d : scst_device) : M scst_device :=
  kfree (dh_priv d) ;;;
  ret (set_dh_priv None d).

(** ** cdrom_get_block_shift, cdrom_parse *)

Definition cdrom_get_block_shift (cmd : scst_cmd) : M Z :=
  load_block_shift (dh_priv (dev cmd)).

(** [scst_cdrom_generic_parse] is an entry point of the SCST core: it is
    given the command and the accessor, works on the command and the
    kernel state and returns an [int]. *)
Definition generic_parse := scst_cmd -> (scst_cmd -> M Z) -> M (Z * scst_cmd).

(** The value of [scst_cdrom_generic_parse] is dropped; [res] keeps its
    initial value. *)
Definition cdrom_parse (scst_cdrom_generic_parse : generic_parse)
    (cmd : scst_cmd) : M (Z * scst_cmd) :=
  let res := SCST_CMD_STATE_DEFAULT in
  r <~ scst_cdrom_generic_parse cmd cdrom_get_block_shift ;;
  ret (res, set_retries SCST_PASSTHROUGH_RETRIES (snd r)).

(** ** cdrom_set_block_shift *)

Definition cdrom_set_block_shift (cmd : scst_cmd) (shift : Z) : M unit :=
  if negb (shift =? 0) then
    store_block_shift (dh_priv (dev cmd)) shift
  else
    store_block_shift (dh_priv (dev cmd)) CDROM_DEF_BLOCK_SHIFT.

(** ** cdrom_done *)

(** [scst_block_generic_dev_done] is an entry point of the SCST core: it is
    given the command and the setter, works on the kernel state and returns
    the next state of the command. *)
Definition generic_dev_done := scst_cmd -> (scst_cmd -> Z -> M unit) -> M Z.

Definition cdrom_done (scst_block_generic_dev_done : generic_dev_done)
    (cmd : scst_cmd) : M Z :=
  res <~ scst_block_generic_dev_done cmd cdrom_set_block_shift ;;
  ret res.

(** ** Vocabulary of the statements *)

(** The transport after [i] capacity queries, and the reply to query
    number [i] (from 0). *)
Fixpoint link_after (i : nat) (sdev : scsi_device) (cdb : list byte)
    (t : transport) : transport :=
  match i with
  | O => t
  | S i' => link_after i' sdev cdb (snd (scsi_execute sdev cdb t))
  end.

Definition nth_reply (sdev : scsi_device) (cdb : list byte) (t : transport)
    (i : nat) : exec_reply :=
  fst (scsi_execute sdev cdb (link_after i sdev cdb t)).

(** A failed query whose sense data is a unit attention: the condition
    under which the loop goes round again. *)
Definition is_transient (r : exec_reply) : bool :=
  negb (rc r =? 0) && scst_analyze_sense (sense r).

(** The next [n] allocation requests are served. *)
Fixpoint allocs_served (n : nat) (plan : list bool) : bool :=
  match n with
  | O => true
  | S n' => negb (hd false plan) && allocs_served n' (tl plan)
  end.

(** The device handle passes the check at the head of [cdrom_attach]. *)
Definition type_matches (d : scst_device) (sdev : scsi_device) : Prop :=
  scsi_dev d = Some sdev /\ sd_type sdev = dev_type d.

(** The sector size found in a reply: bytes 4 to 7 of the buffer. *)
Definition reply_sector_size (r : exec_reply) : Z :=
  let b := overlay buffer_size (data r) in
  sector_size_of (nth 4 b x00) (nth 5 b x00) (nth 6 b x00) (nth 7 b x00).

(** The shift that ends up in the Record after a reply that left the loop
    through [break]. *)
Definition probed_shift (r : exec_reply) : Z :=
  if rc r =? 0 then
    if reply_sector_size r =? 0 then CDROM_DEF_BLOCK_SHIFT
    else scst_calc_block_shift (reply_sector_size r)
  else CDROM_DEF_BLOCK_SHIFT.

(** An object that may serve as the scratch buffer. *)
Definition is_buffer (o : obj) : bool :=
  match o with
  | ObjParams _ => false
  | ObjBuffer _ | ObjUninit _ => true
  end.

(** The kernel after the queries number 0 to [m] of the probe loop: the
    buffer holds the last reply, the transport has moved on. *)
Definition after_queries (m : nat) (sdev : scsi_device) (cdb : list byte)
    (buffer : addr) (k : kernel) : kernel :=
  {| heap := <[buffer := ObjBuffer (overlay buffer_size
                           (data (nth_reply sdev cdb (link k) m)))]> (heap k);
     alloc_plan := alloc_plan k;
     link := link_after (S m) sdev cdb (link k);
     trace := replicate (S m) (Ev_exec cdb) ++ trace k |}.

(** The addresses [kzalloc] and [kmalloc] hand out in [cdrom_attach] when
    both requests are served. *)
Definition params_addr (k : kernel) : addr := fresh (dom (heap k)).

Definition buffer_addr (k : kernel) : addr :=
  fresh (dom (<[params_addr k := ObjParams {| block_shift := 0 |}]> (heap k))).

(** The trace of [cdrom_attach] from its two allocations up to the end of
    the loop, after [q] queries. *)
Definition probe_trace (q : nat) (cdb : list byte) (k : kernel) : list event :=
  replicate q (Ev_exec cdb)
  ++ Ev_alloc buffer_size (Some (buffer_addr k))
  :: Ev_alloc 4 (Some (params_addr k))
  :: trace k.

(** The kernel [cdrom_attach] leaves behind after [q] queries: the heap
    [h], the transport [l], and the events [tail] after the loop. *)
Definition attach_end (k : kernel) (cdb : list byte) (q : nat)
    (tail : list event) (h : gmap addr obj) (l : transport) : kernel :=
  {| heap := h;
     alloc_plan := tl (tl (alloc_plan k));
     link := l;
     trace := tail ++ probe_trace q cdb k |}.

(** No Record in the heap holds a zero shift. *)
Definition shifts_nonzero (k : kernel) : Prop :=
  forall (a : addr) (r : cdrom_params),
    heap k !! a = Some (ObjParams r) -> block_shift r <> 0.

(** The private pointer of a device is NULL or a live Record. *)
Definition priv_ok (d : scst_device) (k : kernel) : Prop :=
  match dh_priv d with
  | None => True
  | Some p => exists r, heap k !! p = Some (ObjParams r)
  end.

End Handler.

Arguments kernel {F}.

(** ** cdrom_init, cdrom_exit

    The calls a module load or unload makes to the SCST core, in order.
    The results of [scst_register_dev_driver] and of
    [scst_dev_handler_build_std_proc] are given; the build option
    CONFIG_SCST_PROC selects the code between [#ifdef] and [#endif]. *)
Inductive module_call :=
| Call_register
| Call_build_std_proc
| Call_destroy_std_proc
| Call_unregister.

Definition cdrom_init (CONFIG_SCST_PROC : bool) (register_res proc_res : Z)
    : Z * list module_call :=
  let res := register_res in
  if res <? 0 then
    (res, [Call_register])
  else if CONFIG_SCST_PROC then
    let res := proc_res in
    if negb (res =? 0) then
      (res, [Call_register; Call_build_std_proc; Call_unregister])
    else
      (res, [Call_register; Call_build_std_proc])
  else
    (res, [Call_register]).

Definition cdrom_exit (CONFIG_SCST_PROC : bool) : list module_call :=
  (if CONFIG_SCST_PROC then [Call_destroy_std_proc] else [])
  ++ [Call_unregister].

(** The call that takes back what a call set up. *)
Definition undo_call (c : module_call) : module_call :=
  match c with
  | Call_register => Call_unregister
  | Call_build_std_proc => Call_destroy_std_proc
  | Call_destroy_std_proc => Call_destroy_std_proc
  | Call_unregister => Call_unregister
  end.

(** ** Scripted frameworks for the examples *)

(** A transport that answers query number [i] with [script i], a sense
    classifier that looks at the sense key of fixed-format sense data, a
    shift helper and a parameter synchronisation with a fixed result. *)
Definition scripted (ua_retries : Z) (script : nat -> exec_reply)
    (sync_res : Z) : Framework :=
  {| SCST_DEV_UA_RETRIES := ua_retries;
     SCST_PASSTHROUGH_RETRIES := 0;
     SCST_CMD_STATE_DEFAULT := 500;
     transport := nat;
     scsi_execute := fun _ _ t => (script t, S t);
     scst_analyze_sense := fun s => Byte.eqb (nth 2 s x00) x06;
     scst_calc_block_shift := Z.log2;
     scst_obtain_device_parameters := fun _ t => (sync_res, t) |}.

Definition ua_reply : exec_reply :=
  {| rc := 134217730; data := []; sense := [x70; x00; x06] |}.

Definition hard_reply : exec_reply :=
  {| rc := 134217730; data := []; sense := [x70; x00; x05] |}.

Definition reply_2048 : exec_reply :=
  {| rc := 0; data := [x00; x00; x10; x00; x00; x00; x08; x00]; sense := [] |}.

Definition always_ua : Framework := scripted 5 (fun _ => ua_reply) 0.
Definition hard_failure : Framework := scripted 5 (fun _ => hard_reply) 0.
Definition reports_2048 : Framework := scripted 5 (fun _ => reply_2048) 0.
Definition sync_fails : Framework := scripted 5 (fun _ => reply_2048) (-5).

Definition rom_scsi_device : scsi_device :=
  {| sd_type := 5; scsi_level := 3; lun := 0 |}.

Definition rom_device : scst_device :=
  {| scsi_dev := Some rom_scsi_device; dev_type := 5; dh_priv := None |}.

Definition disk_behind_rom_handler : scst_device :=
  {| scsi_dev := Some {| sd_type := 0; scsi_level := 3; lun := 0 |};
     dev_type := 5;
     dh_priv := None |}.

Definition boot_kernel (F : Framework) (t : transport) : kernel :=
  {| heap := ∅; alloc_plan := []; link := t; trace := [] |}.

(** A kernel in which the Record of a device lives at address 1. *)
Definition attached_kernel (F : Framework) (t : transport) (shift : Z)
    : kernel :=
  {| heap := {[ 1%positive := ObjParams {| block_shift := shift |} ]};
     alloc_plan := []; link := t; trace := [] |}.

Definition attached_device : scst_device := set_dh_priv (Some 1%positive) rom_device.

Definition some_cmd : scst_cmd :=
  {| dev := attached_device; retries := 7; bufflen := 1 |}.

(** A generic parser in the style of the SCST core: it scales the length
    of the command by the block shift it gets from the accessor. *)
Definition scaling_parse `{F : Framework} : generic_parse :=
  fun cmd get_block_shift k =>
    match get_block_shift cmd k with
    | Some (shift, k') =>
      Some ((0, {| dev := dev cmd; retries := retries cmd;
                   bufflen := Z.shiftl (bufflen cmd) shift |}), k')
    | None => None
    end.

(** A transport that reports a unit attention four times and then the
    capacity. *)
Definition late_success : Framework :=
  scripted 5 (fun i => if (i <? 4)%nat then ua_reply else reply_2048) 0.



(** A device below SCSI-3 on LUN 3. *)
Definition scsi2_lun3 : scsi_device :=
  {| sd_type := 5; scsi_level := 2; lun := 3 |}.

(** A generic completion routine in the style of the SCST core: it hands
    the setter the value it finds in the command. *)
Definition tracking_done `{F : Framework} : generic_dev_done :=
  fun cmd set_block_shift k =>
    match set_block_shift cmd (bufflen cmd) k with
    | Some (_, k') => Some (500, k')
    | None => None
    end.

(** * Proofs *)

Section Proofs.

Context `{F : Framework}.

Implicit Types (k : kernel) (d : scst_device) (sdev : scsi_device).

Lemma wrap_int_id (z : Z) : - 2 ^ 31 <= z < 2 ^ 31 -> wrap_int z = z.
Proof. intros Hz. unfold wrap_int. rewrite Z.mod_small; lia. Qed.

Lemma byte_val_range (b : byte) : 0 <= byte_val b < 256.
Proof.
  unfold byte_val. pose proof (Byte.to_N_bounded b). lia.
Qed.

(** [hi << n | lo] is [hi * 2^n + lo] when [lo] fits in [n] bits. *)
Lemma lor_shiftl_add (hi lo n : Z) :
  0 <= n -> 0 <= lo < 2 ^ n -> Z.lor (Z.shiftl hi n) lo = hi * 2 ^ n + lo.
Proof.
  intros Hn Hlo. rewrite <- Z.shiftl_mul_pow2 by lia.
  symmetry. apply Z.add_nocarry_lor.
  apply Z.bits_inj'. intros i Hi.
  rewrite Z.land_spec, Z.bits_0.
  destruct (Z.lt_ge_cases i n) as [Hlt|Hge].
  - rewrite Z.shiftl_spec_low by lia. reflexivity.
  - destruct (Z.eq_dec lo 0) as [->|Hnz].
    + rewrite Z.bits_0. apply andb_false_r.
    + rewrite (Z.bits_above_log2 lo i); [apply andb_false_r | lia |].
      apply Z.lt_le_trans with n; [|lia].
      apply Z.log2_lt_pow2; lia.
Qed.

(** The four buffer bytes are read most significant first. *)
Lemma sector_size_big_endian (b4 b5 b6 b7 : byte) :
  sector_size_of b4 b5 b6 b7 =
  wrap_int (byte_val b4 * 2 ^ 24 + byte_val b5 * 2 ^ 16
            + byte_val b6 * 2 ^ 8 + byte_val b7).
Proof.
  unfold sector_size_of.
  pose proof (byte_val_range b4). pose proof (byte_val_range b5).
  pose proof (byte_val_range b6). pose proof (byte_val_range b7).
  rewrite Z.shiftl_0_r.
  rewrite (Z.shiftl_mul_pow2 (byte_val b4)) by lia.
  replace (byte_val b4 * 2 ^ 24) with (Z.shiftl (byte_val b4 * 2 ^ 8) 16)
    by (rewrite Z.shiftl_mul_pow2 by lia; lia).
  rewrite <- Z.shiftl_lor.
  replace (Z.lor (byte_val b4 * 2 ^ 8) (byte_val b5))
    with (byte_val b4 * 2 ^ 8 + byte_val b5)
    by (rewrite <- lor_shiftl_add by lia; rewrite Z.shiftl_mul_pow2 by lia; reflexivity).
  replace (Z.shiftl (byte_val b4 * 2 ^ 8 + byte_val b5) 16)
    with (Z.shiftl ((byte_val b4 * 2 ^ 8 + byte_val b5) * 2 ^ 8) 8)
    by (rewrite !Z.shiftl_mul_pow2 by lia; lia).
  rewrite <- Z.shiftl_lor.
  replace (Z.lor ((byte_val b4 * 2 ^ 8 + byte_val b5) * 2 ^ 8) (byte_val b6))
    with ((byte_val b4 * 2 ^ 8 + byte_val b5) * 2 ^ 8 + byte_val b6)
    by (rewrite <- lor_shiftl_add by lia; rewrite Z.shiftl_mul_pow2 by lia; reflexivity).
  rewrite lor_shiftl_add by lia. apply (f_equal wrap_int).
  rewrite Z.shiftl_mul_pow2 by lia. lia.
Qed.

Lemma replicate_app_cons {A : Type} (n : nat) (x : A) (l : list A) :
  replicate n x ++ x :: l = x :: replicate n x ++ l.
Proof. induction n as [|n IH]; simpl; [reflexivity | rewrite IH; reflexivity]. Qed.

(** ** The probe loop *)

Section Loop.

Variables (sdev : scsi_device) (cdb : list byte) (buffer params : addr).

Lemma after_queries_succ (m : nat) k :
  after_queries m sdev cdb buffer (after_queries 0 sdev cdb buffer k)
  = after_queries (S m) sdev cdb buffer k.
Proof.
  unfold after_queries, nth_reply. simpl. f_equal.
  - apply insert_insert_eq.
  - f_equal. apply replicate_app_cons.
Qed.

(** One turn of the loop up to the test: the buffer is zeroed and takes
    the reply of the transport. *)
Lemma query_step k (o : obj) :
  heap k !! buffer = Some o -> is_buffer o = true ->
  bind (memset_zero buffer buffer_size)
       (fun _ => do_scsi_execute sdev cdb buffer buffer_size) k
  = Some ((rc (nth_reply sdev cdb (link k) 0),
           sense (nth_reply sdev cdb (link k) 0)),
          after_queries 0 sdev cdb buffer k).
Proof.
  intros Hb Ho. unfold bind, memset_zero, do_scsi_execute, nth_reply.
  rewrite Hb. destruct o as [r|bs|sz]; try discriminate; simpl;
    rewrite lookup_insert_eq;
    destruct (scsi_execute sdev cdb (link k)) as [r t1] eqn:E; simpl;
    unfold after_queries, nth_reply; simpl; rewrite E; simpl;
    rewrite insert_insert_eq; reflexivity.
Qed.

(** [m] transient failures followed by a reply that is not one: the loop
    leaves through [break] after [m + 1] queries. *)
Lemma loop_break (m : nat) :
  forall (n : nat) (left : Z) k (o : obj),
    (m < n)%nat ->
    Z.of_nat m < left < 2 ^ 31 ->
    heap k !! buffer = Some o -> is_buffer o = true ->
    (forall i, (i < m)%nat ->
       is_transient (nth_reply sdev cdb (link k) i) = true) ->
    is_transient (nth_reply sdev cdb (link k) m) = false ->
    read_capacity_loop n sdev cdb buffer params left k
    = Some (Break (rc (nth_reply sdev cdb (link k) m)),
            after_queries m sdev cdb buffer k).
Proof.
  induction m as [|m IH]; intros n left k o Hn Hleft Hb Ho Hpre Hlast;
    (destruct n as [|n]; [lia|]); simpl.
  - pose proof (query_step k o Hb Ho) as Hq.
    unfold bind in *.
    destruct (memset_zero buffer buffer_size k) as [[u k0]|]; [|discriminate].
    rewrite Hq. simpl.
    unfold is_transient in Hlast.
    destruct (rc (nth_reply sdev cdb (link k) 0) =? 0); simpl in *; [reflexivity|].
    rewrite Hlast. reflexivity.
  - pose proof (query_step k o Hb Ho) as Hq.
    unfold bind in *.
    destruct (memset_zero buffer buffer_size k) as [[u k0]|]; [|discriminate].
    rewrite Hq. simpl.
    pose proof (Hpre 0%nat ltac:(lia)) as H0.
    unfold is_transient in H0. apply andb_true_iff in H0 as [Hrc Hua].
    apply negb_true_iff in Hrc. rewrite Hrc, Hua. simpl.
    rewrite wrap_int_id by lia.
    destruct (Z.eqb_spec (left - 1) 0) as [Heq|Hne]; [lia|].
    erewrite (IH n (left - 1) (after_queries 0 sdev cdb buffer k)).
    + rewrite after_queries_succ. reflexivity.
    + lia.
    + lia.
    + simpl. apply lookup_insert_eq.
    + reflexivity.
    + intros i Hi. apply (Hpre (S i)). lia.
    + exact Hlast.
Qed.

(** As many transient failures as the budget allows: the default shift
    is stored and the loop leaves for [out_free_buf]. *)
Lemma loop_exhausted (m : nat) :
  forall (n : nat) (left : Z) k (o : obj) (r0 : cdrom_params),
    (m < n)%nat ->
    left = Z.of_nat (S m) -> left < 2 ^ 31 ->
    heap k !! buffer = Some o -> is_buffer o = true ->
    buffer <> params ->
    heap k !! params = Some (ObjParams r0) ->
    (forall i, (i <= m)%nat ->
       is_transient (nth_reply sdev cdb (link k) i) = true) ->
    read_capacity_loop n sdev cdb buffer params left k
    = Some (Exhausted,
            emit (Ev_store params CDROM_DEF_BLOCK_SHIFT)
              (set_heap (<[params := ObjParams {| block_shift := CDROM_DEF_BLOCK_SHIFT |}]>
                           (heap (after_queries m sdev cdb buffer k)))
                 (after_queries m sdev cdb buffer k))).
Proof.
  induction m as [|m IH]; intros n left k o r0 Hn Hleft Hint Hb Ho Hne Hp Hall;
    (destruct n as [|n]; [lia|]); simpl;
    pose proof (query_step k o Hb Ho) as Hq;
    unfold bind in *;
    (destruct (memset_zero buffer buffer_size k) as [[u k0]|]; [|discriminate]);
    rewrite Hq; simpl;
    pose proof (Hall 0%nat ltac:(lia)) as H0;
    unfold is_transient in H0; apply andb_true_iff in H0 as [Hrc Hua];
    apply negb_true_iff in Hrc; rewrite Hrc, Hua; simpl;
    rewrite wrap_int_id by lia.
  - destruct (Z.eqb_spec (left - 1) 0) as [Heq|Hnz]; [|lia].
    unfold store_block_shift. simpl.
    rewrite lookup_insert_ne by exact Hne. rewrite Hp. reflexivity.
  - destruct (Z.eqb_spec (left - 1) 0) as [Heq|Hnz]; [lia|].
    erewrite (IH n (left - 1) (after_queries 0 sdev cdb buffer k)).
    + rewrite after_queries_succ. reflexivity.
    + lia.
    + lia.
    + lia.
    + simpl. apply lookup_insert_eq.
    + reflexivity.
    + exact Hne.
    + simpl. rewrite lookup_insert_ne by exact Hne. exact Hp.
    + intros i Hi. apply (Hall (S i)). lia.
Qed.

(** Whatever the transport does, within a budget of [q] queries either
    some query is the first not to fail transiently, or all [q] do. *)
Lemma replies_cases (t : transport) (q : nat) :
  (exists m, (m < q)%nat /\
     (forall i, (i < m)%nat -> is_transient (nth_reply sdev cdb t i) = true) /\
     is_transient (nth_reply sdev cdb t m) = false)
  \/ (forall i, (i < q)%nat -> is_transient (nth_reply sdev cdb t i) = true).
Proof.
  induction q as [|q IH].
  - right. intros i Hi. lia.
  - destruct IH as [(m & Hm & Hpre & Hlast)|Hall].
    + left. exists m. split; [lia|]. split; assumption.
    + destruct (is_transient (nth_reply sdev cdb t q)) eqn:E.
      * right. intros i Hi. destruct (decide (i = q)) as [->|Hne]; [exact E|].
        apply Hall. lia.
      * left. exists q. split; [lia|]. split; assumption.
Qed.

End Loop.

(** ** Allocation, buffer and Record accesses *)

Lemma fresh_params k : heap k !! params_addr k = None.
Proof. apply not_elem_of_dom, is_fresh. Qed.

Lemma fresh_buffer k :
  heap k !! buffer_addr k = None /\ buffer_addr k <> params_addr k.
Proof.
  pose proof (is_fresh (dom (<[params_addr k := ObjParams {| block_shift := 0 |}]> (heap k))))
    as Hf.
  fold (buffer_addr k) in Hf. apply not_elem_of_dom in Hf.
  split.
  - destruct (decide (buffer_addr k = params_addr k)) as [e|ne].
    + rewrite e in Hf. rewrite lookup_insert_eq in Hf. discriminate.
    + rewrite lookup_insert_ne in Hf by congruence. exact Hf.
  - intros e. rewrite e in Hf. rewrite lookup_insert_eq in Hf. discriminate.
Qed.

Lemma allocs_served_2 (plan : list bool) :
  allocs_served 2 plan = true ->
  hd false plan = false /\ hd false (tl plan) = false.
Proof.
  simpl. intros H. apply andb_true_iff in H as [H1 H2].
  apply andb_true_iff in H2 as [H2 _].
  apply negb_true_iff in H1, H2. split; assumption.
Qed.

Lemma overlay_length (size : nat) (bs : list byte) :
  length (overlay size bs) = size.
Proof.
  unfold overlay. rewrite length_take, length_app, length_replicate. lia.
Qed.

Lemma overlay_lookup (size : nat) (bs : list byte) (i : nat) :
  (i < size)%nat -> overlay size bs !! i = Some (nth i (overlay size bs) x00).
Proof.
  intros Hi. rewrite nth_lookup.
  destruct (overlay size bs !! i) as [b|] eqn:E; [reflexivity|].
  apply lookup_ge_None in E. rewrite overlay_length in E. lia.
Qed.

(** After a [break], the Record receives [probed_shift] of the last
    reply. *)
Lemma set_probed_shift_spec k (buffer params : addr) (r : exec_reply)
    (r0 : cdrom_params) :
  heap k !! buffer = Some (ObjBuffer (overlay buffer_size (data r))) ->
  heap k !! params = Some (ObjParams r0) ->
  set_probed_shift (rc r) buffer params k
  = Some (tt, emit (Ev_store params (probed_shift r))
                (set_heap (<[params := ObjParams {| block_shift := probed_shift r |}]>
                             (heap k)) k)).
Proof.
  intros Hb Hp. unfold set_probed_shift, probed_shift, reply_sector_size.
  destruct (rc r =? 0).
  - unfold bind, load_byte. rewrite Hb.
    rewrite !overlay_lookup by (unfold buffer_size; lia).
    cbv beta iota. rewrite Hb.
    rewrite !overlay_lookup by (unfold buffer_size; lia).
    cbv beta iota. rewrite Hb.
    rewrite !overlay_lookup by (unfold buffer_size; lia).
    cbv beta iota. rewrite Hb.
    rewrite !overlay_lookup by (unfold buffer_size; lia).
    cbv beta iota.
    destruct (sector_size_of _ _ _ _ =? 0);
      unfold store_block_shift; rewrite Hp; reflexivity.
  - unfold store_block_shift. rewrite Hp. reflexivity.
Qed.

Lemma heap_keep_params (h : gmap addr obj) (p b : addr) (o1 o2 o3 o4 : obj) :
  h !! b = None -> b <> p ->
  delete b (<[p := o1]> (<[b := o2]> (<[b := o3]> (<[p := o4]> h))))
  = <[p := o1]> h.
Proof.
  intros Hb Hne. apply map_eq. intros i.
  destruct (decide (i = p)) as [Hip|Hip]; destruct (decide (i = b)) as [Hib|Hib];
    simplify_map_eq; done.
Qed.

Lemma heap_release_params (h : gmap addr obj) (p : addr) (o1 : obj) :
  h !! p = None ->
  delete p (<[p := o1]> h) = h.
Proof. intros Hp. apply delete_insert_id. exact Hp. Qed.

(** ** The paths through cdrom_attach *)

#[local] Arguments link_after : simpl never.
#[local] Arguments nth_reply : simpl never.

(** The kernel at the head of the loop, both allocations served. *)
Lemma attach_prefix (n : nat) d sdev k :
  type_matches d sdev ->
  allocs_served 2 (alloc_plan k) = true ->
  cdrom_attach n d k
  = bind (read_capacity_loop n sdev (read_capacity_cdb sdev)
            (buffer_addr k) (params_addr k) SCST_DEV_UA_RETRIES)
      (fun ex =>
         match ex with
         | Exhausted =>
           out_free_buf (- ENODEV) (buffer_addr k) (params_addr k) d
         | Break exit_rc =>
           bind (set_probed_shift exit_rc (buffer_addr k) (params_addr k))
             (fun _ => bind (do_obtain_device_parameters d)
                (fun res => out_free_buf res (buffer_addr k) (params_addr k) d))
         end)
      {| heap := <[buffer_addr k := ObjUninit buffer_size]>
                   (<[params_addr k := ObjParams {| block_shift := 0 |}]> (heap k));
         alloc_plan := tl (tl (alloc_plan k));
         link := link k;
         trace := probe_trace 0 (read_capacity_cdb sdev) k |}.
Proof.
  intros [Hsd Hty] Hplan. apply allocs_served_2 in Hplan as [Hp1 Hp2].
  unfold cdrom_attach. rewrite Hsd, Hty, Z.eqb_refl. simpl.
  unfold bind at 1. unfold kzalloc_params, alloc. rewrite Hp1.
  unfold bind at 1. unfold kmalloc, alloc. simpl. rewrite Hp2.
  reflexivity.
Qed.

(** The loop leaves through [break] at query number [m]: the shift of
    that reply is stored, the parameters are synchronised, the buffer is
    freed and, according to the result, the Record is attached or freed. *)
Lemma attach_break (n m : nat) d sdev k :
  type_matches d sdev ->
  allocs_served 2 (alloc_plan k) = true ->
  (m < n)%nat ->
  Z.of_nat m < SCST_DEV_UA_RETRIES < 2 ^ 31 ->
  (forall i, (i < m)%nat ->
     is_transient (nth_reply sdev (read_capacity_cdb sdev) (link k) i) = true) ->
  is_transient (nth_reply sdev (read_capacity_cdb sdev) (link k) m) = false ->
  let cdb := read_capacity_cdb sdev in
  let shift := probed_shift (nth_reply sdev cdb (link k) m) in
  let sync := scst_obtain_device_parameters d (link_after (S m) sdev cdb (link k)) in
  let p := params_addr k in
  let b := buffer_addr k in
  cdrom_attach n d k
  = if fst sync =? 0 then
      Some ((fst sync, set_dh_priv (Some p) d),
            attach_end k cdb (S m) [Ev_free b; Ev_sync; Ev_store p shift]
              (<[p := ObjParams {| block_shift := shift |}]> (heap k)) (snd sync))
    else
      Some ((fst sync, d),
            attach_end k cdb (S m)
              [Ev_free p; Ev_free b; Ev_sync; Ev_store p shift]
              (heap k) (snd sync)).
Proof.
  intros Hty Hplan Hn Hleft Hpre Hlast cdb shift sync p b.
  pose proof (fresh_params k) as Hfp.
  pose proof (fresh_buffer k) as [Hfb Hbp].
  rewrite (attach_prefix n d sdev k Hty Hplan).
  unfold bind at 1.
  erewrite (loop_break sdev cdb b p m n SCST_DEV_UA_RETRIES _ (ObjUninit buffer_size));
    [ | exact Hn | exact Hleft | apply lookup_insert_eq | reflexivity
      | exact Hpre | exact Hlast ].
  cbv beta iota. unfold bind at 1.
  erewrite (set_probed_shift_spec _ b p (nth_reply sdev cdb (link k) m)
              {| block_shift := 0 |});
    [ | apply lookup_insert_eq
      | simpl; rewrite !lookup_insert_ne by exact Hbp; apply lookup_insert_eq ].
  cbv beta iota. unfold bind at 1. unfold do_obtain_device_parameters.
  simpl. fold cdb. fold sync. destruct sync as [res l'] eqn:Esync.
  unfold out_free_buf, bind, kfree. simpl.
  rewrite lookup_insert_ne by (intros e; apply Hbp; symmetry; exact e).
  rewrite lookup_insert_eq.
  unfold out_free_params. fold shift b p.
  rewrite (heap_keep_params (heap k) p b) by assumption.
  destruct (res =? 0).
  - reflexivity.
  - unfold bind, kfree. simpl. rewrite lookup_insert_eq.
    unfold emit, set_heap, attach_end. simpl.
    rewrite (heap_release_params (heap k) p) by assumption.
    reflexivity.
Qed.

(** Every query up to the budget fails transiently: the default shift is
    stored, then buffer and Record are freed and the result is -ENODEV. *)
Lemma attach_exhausted (n q : nat) d sdev k :
  type_matches d sdev ->
  allocs_served 2 (alloc_plan k) = true ->
  (q < n)%nat ->
  SCST_DEV_UA_RETRIES = Z.of_nat (S q) ->
  SCST_DEV_UA_RETRIES < 2 ^ 31 ->
  (forall i, (i <= q)%nat ->
     is_transient (nth_reply sdev (read_capacity_cdb sdev) (link k) i) = true) ->
  let cdb := read_capacity_cdb sdev in
  let p := params_addr k in
  let b := buffer_addr k in
  cdrom_attach n d k
  = Some ((- ENODEV, d),
          attach_end k cdb (S q)
            [Ev_free p; Ev_free b; Ev_store p CDROM_DEF_BLOCK_SHIFT]
            (heap k) (link_after (S q) sdev cdb (link k))).
Proof.
  intros Hty Hplan Hn Hleft Hint Hall cdb p b.
  pose proof (fresh_params k) as Hfp.
  pose proof (fresh_buffer k) as [Hfb Hbp].
  rewrite (attach_prefix n d sdev k Hty Hplan).
  unfold bind at 1.
  erewrite (loop_exhausted sdev cdb b p q n SCST_DEV_UA_RETRIES _
              (ObjUninit buffer_size) {| block_shift := 0 |});
    [ | exact Hn | exact Hleft | exact Hint | apply lookup_insert_eq
      | reflexivity | exact Hbp
      | simpl; rewrite lookup_insert_ne by exact Hbp; apply lookup_insert_eq
      | exact Hall ].
  cbv beta iota.
  unfold out_free_buf, bind, kfree. simpl.
  rewrite lookup_insert_ne by (intros e; apply Hbp; symmetry; exact e).
  rewrite lookup_insert_eq.
  unfold out_free_params. fold b p.
  rewrite (heap_keep_params (heap k) p b) by assumption.
  simpl. unfold bind, kfree. simpl. rewrite lookup_insert_eq.
  unfold emit, set_heap, attach_end. simpl.
  rewrite (heap_release_params (heap k) p) by assumption.
  reflexivity.
Qed.

(** The check at the head of the function fails: nothing has happened. *)
Lemma attach_wrong_type (n : nat) d k :
  (scsi_dev d = None \/
   exists sdev, scsi_dev d = Some sdev /\ sd_type sdev <> dev_type d) ->
  cdrom_attach n d k = Some ((- ENODEV, d), k).
Proof.
  intros [Hnone|(sdev & Hsd & Hty)]; unfold cdrom_attach.
  - rewrite Hnone. reflexivity.
  - rewrite Hsd. destruct (Z.eqb_spec (sd_type sdev) (dev_type d)) as [e|ne];
      [contradiction | reflexivity].
Qed.

(** [kzalloc] fails: -ENOMEM, nothing to free. *)
Lemma attach_no_params (n : nat) d sdev k :
  type_matches d sdev ->
  hd false (alloc_plan k) = true ->
  cdrom_attach n d k
  = Some ((- ENOMEM, d),
          {| heap := heap k; alloc_plan := tl (alloc_plan k); link := link k;
             trace := Ev_alloc 4 None :: trace k |}).
Proof.
  intros [Hsd Hty] Hplan. unfold cdrom_attach.
  rewrite Hsd, Hty, Z.eqb_refl. simpl.
  unfold bind, kzalloc_params, alloc. rewrite Hplan. reflexivity.
Qed.

(** [kmalloc] fails: -ENOMEM, the Record is freed. *)
Lemma attach_no_buffer (n : nat) d sdev k :
  type_matches d sdev ->
  hd false (alloc_plan k) = false ->
  hd false (tl (alloc_plan k)) = true ->
  cdrom_attach n d k
  = Some ((- ENOMEM, d),
          {| heap := heap k; alloc_plan := tl (tl (alloc_plan k));
             link := link k;
             trace := Ev_free (params_addr k)
                      :: Ev_alloc buffer_size None
                      :: Ev_alloc 4 (Some (params_addr k))
                      :: trace k |}).
Proof.
  intros [Hsd Hty] Hp1 Hp2. unfold cdrom_attach.
  rewrite Hsd, Hty, Z.eqb_refl. simpl.
  unfold bind at 1. unfold kzalloc_params, alloc. rewrite Hp1.
  unfold bind at 1. unfold kmalloc, alloc. simpl. rewrite Hp2.
  unfold out_free_params, bind, kfree. simpl.
  fold (params_addr k). rewrite lookup_insert_eq.
  unfold emit, set_heap. simpl.
  rewrite delete_insert_id by apply fresh_params. reflexivity.
Qed.

(** ** Counting in traces *)

Lemma attempts_app (t1 t2 : list event) :
  attempts (t1 ++ t2) = (attempts t1 + attempts t2)%nat.
Proof. unfold attempts. rewrite List.filter_app, length_app. reflexivity. Qed.

Lemma attempts_queries (q : nat) (cdb : list byte) :
  attempts (replicate q (Ev_exec cdb)) = q.
Proof.
  induction q as [|q IH]; [reflexivity|].
  unfold attempts in *. simpl. rewrite IH. reflexivity.
Qed.

Lemma attempts_probe_trace (q : nat) (cdb : list byte) k :
  attempts (probe_trace q cdb k) = (q + attempts (trace k))%nat.
Proof.
  unfold probe_trace. rewrite attempts_app, attempts_queries. reflexivity.
Qed.

Lemma attempts_attach_end k (cdb : list byte) (q : nat) (tail : list event)
    (h : gmap addr obj) (l : transport) :
  attempts (trace (attach_end k cdb q tail h l))
  = (attempts tail + q + attempts (trace k))%nat.
Proof.
  unfold attach_end. cbn [trace].
  rewrite attempts_app, attempts_probe_trace. lia.
Qed.

(** A helper that meets the round-trip requirement maps 2048 to 11. *)
Lemma derive_2048 (derive : Z -> Z) :
  DeriveBlockShift_spec derive -> derive 2048 = 11.
Proof.
  intros Hspec. pose proof (Hspec 11 ltac:(lia)) as H.
  change (2 ^ 11) with 2048 in H.
  destruct (Z.lt_ge_cases (derive 2048) 0) as [Hneg|Hpos].
  - rewrite Z.pow_neg_r in H by exact Hneg. discriminate.
  - apply (Z.pow_inj_r 2); [lia | exact Hpos | lia | exact H].
Qed.

(** * The claims *)

(** C1 (amended).  When every capacity query within the budget fails with
    a unit attention, [cdrom_attach] issues exactly SCST_DEV_UA_RETRIES
    queries and stores the default shift 11 in the Record; it then frees
    the buffer and the Record and returns -ENODEV, leaving the device
    handle and the heap as they were. *)
Theorem attach_transient_budget (n : nat) d sdev k :
  type_matches d sdev ->
  allocs_served 2 (alloc_plan k) = true ->
  0 < SCST_DEV_UA_RETRIES < 2 ^ 31 ->
  (Z.to_nat SCST_DEV_UA_RETRIES <= n)%nat ->
  (forall i, Z.of_nat i < SCST_DEV_UA_RETRIES ->
     is_transient (nth_reply sdev (read_capacity_cdb sdev) (link k) i) = true) ->
  exists k',
    cdrom_attach n d k = Some ((- ENODEV, d), k') /\
    Z.of_nat (attempts (trace k'))
    = Z.of_nat (attempts (trace k)) + SCST_DEV_UA_RETRIES /\
    (exists tr,
       trace k' = Ev_free (params_addr k) :: Ev_free (buffer_addr k)
                  :: Ev_store (params_addr k) CDROM_DEF_BLOCK_SHIFT :: tr) /\
    heap k' = heap k.
Proof.
  intros Hty Hplan Hr Hn Hall.
  destruct (Z.to_nat SCST_DEV_UA_RETRIES) as [|q] eqn:Eq; [lia|].
  eexists. split; [|split; [|split]].
  - apply (attach_exhausted n q d sdev k Hty Hplan); try lia.
    intros i Hi. apply Hall. lia.
  - rewrite attempts_attach_end.
    change (attempts [Ev_free (params_addr k); Ev_free (buffer_addr k);
                      Ev_store (params_addr k) CDROM_DEF_BLOCK_SHIFT]) with 0%nat.
    lia.
  - eexists. reflexivity.
  - reflexivity.
Qed.

(** C2.  When the first capacity query fails and its sense data is not a
    unit attention, [cdrom_attach] issues that one query only, stores the
    default shift 11 and, the parameter synchronisation succeeding,
    returns 0 with the Record attached to the device handle. *)
Theorem attach_hard_failure_defaults (n : nat) d sdev k :
  type_matches d sdev ->
  allocs_served 2 (alloc_plan k) = true ->
  0 < SCST_DEV_UA_RETRIES < 2 ^ 31 ->
  (0 < n)%nat ->
  rc (nth_reply sdev (read_capacity_cdb sdev) (link k) 0) <> 0 ->
  scst_analyze_sense
    (sense (nth_reply sdev (read_capacity_cdb sdev) (link k) 0)) = false ->
  fst (scst_obtain_device_parameters d
         (link_after 1 sdev (read_capacity_cdb sdev) (link k))) = 0 ->
  exists k',
    cdrom_attach n d k
    = Some ((0, set_dh_priv (Some (params_addr k)) d), k') /\
    attempts (trace k') = S (attempts (trace k)) /\
    heap k' = <[params_addr k :=
                  ObjParams {| block_shift := CDROM_DEF_BLOCK_SHIFT |}]> (heap k).
Proof.
  intros Hty Hplan Hr Hn Hrc Hsense Hsync.
  assert (Hlast : is_transient
                    (nth_reply sdev (read_capacity_cdb sdev) (link k) 0) = false).
  { unfold is_transient. rewrite Hsense. apply andb_false_r. }
  pose proof (attach_break n 0 d sdev k Hty Hplan Hn ltac:(lia)
                ltac:(intros i Hi; lia) Hlast) as Hrun.
  cbv zeta in Hrun. rewrite Hsync in Hrun. simpl in Hrun.
  assert (Hshift : probed_shift
                     (nth_reply sdev (read_capacity_cdb sdev) (link k) 0)
                   = CDROM_DEF_BLOCK_SHIFT).
  { unfold probed_shift. apply Z.eqb_neq in Hrc. rewrite Hrc. reflexivity. }
  rewrite Hshift in Hrun.
  eexists. split; [exact Hrun|]. split.
  - rewrite attempts_attach_end. reflexivity.
  - reflexivity.
Qed.

(** C3.  When a capacity query succeeds, after transient failures only,
    [cdrom_attach] reads bytes 4 to 7 of the buffer as a big-endian sector
    size and stores, as the last write to the Record, the default shift 11
    if the size is zero and [scst_calc_block_shift] of the size otherwise;
    a successful synchronisation attaches the Record with that shift.  In
    particular, when the first query succeeds and reports 2048, the helper
    meeting the round-trip requirement of the spec, the shift is 11 and
    one query was issued. *)
Theorem attach_success_parses_sector_size (n m : nat) d sdev k :
  type_matches d sdev ->
  allocs_served 2 (alloc_plan k) = true ->
  (m < n)%nat ->
  Z.of_nat m < SCST_DEV_UA_RETRIES < 2 ^ 31 ->
  (forall i, (i < m)%nat ->
     is_transient (nth_reply sdev (read_capacity_cdb sdev) (link k) i) = true) ->
  rc (nth_reply sdev (read_capacity_cdb sdev) (link k) m) = 0 ->
  let cdb := read_capacity_cdb sdev in
  let p := params_addr k in
  let b := overlay buffer_size (data (nth_reply sdev cdb (link k) m)) in
  let size := wrap_int (byte_val (nth 4 b x00) * 2 ^ 24
                        + byte_val (nth 5 b x00) * 2 ^ 16
                        + byte_val (nth 6 b x00) * 2 ^ 8
                        + byte_val (nth 7 b x00)) in
  let shift := if size =? 0 then CDROM_DEF_BLOCK_SHIFT
               else scst_calc_block_shift size in
  let sync := scst_obtain_device_parameters d
                (link_after (S m) sdev cdb (link k)) in
  exists d' k',
    cdrom_attach n d k = Some ((fst sync, d'), k') /\
    (exists tail,
       trace k' = tail ++ Ev_store p shift :: probe_trace (S m) cdb k /\
       Forall (fun e => forall a v, e <> Ev_store a v) tail) /\
    (fst sync = 0 ->
       d' = set_dh_priv (Some p) d /\
       heap k' = <[p := ObjParams {| block_shift := shift |}]> (heap k)) /\
    (m = 0%nat -> size = 2048 ->
       DeriveBlockShift_spec scst_calc_block_shift ->
       shift = 11 /\ attempts (trace k') = S (attempts (trace k))).
Proof.
  intros Hty Hplan Hn Hr Hpre Hrc cdb p b size shift sync.
  subst cdb. set (cdb := read_capacity_cdb sdev) in *.
  assert (Hlast : is_transient (nth_reply sdev cdb (link k) m) = false).
  { unfold is_transient. rewrite Hrc. reflexivity. }
  pose proof (attach_break n m d sdev k Hty Hplan Hn Hr Hpre Hlast) as Hrun.
  cbv zeta in Hrun. fold cdb p sync in Hrun.
  assert (Hshift : probed_shift (nth_reply sdev cdb (link k) m) = shift).
  { unfold probed_shift, reply_sector_size.
    rewrite Hrc. rewrite sector_size_big_endian. reflexivity. }
  rewrite Hshift in Hrun.
  assert (Hpart : forall tail h l,
             m = 0%nat -> size = 2048 ->
             DeriveBlockShift_spec scst_calc_block_shift ->
             attempts tail = 0%nat ->
             shift = 11 /\
             attempts (trace (attach_end k cdb (S m) tail h l))
             = S (attempts (trace k))).
  { intros tail h l Hm Hsize Hspec Htail. split.
    - unfold shift. rewrite Hsize. simpl. apply derive_2048. exact Hspec.
    - rewrite attempts_attach_end, Htail, Hm. reflexivity. }
  destruct (fst sync =? 0) eqn:Eres.
  - do 2 eexists. split; [exact Hrun|]. split; [|split].
    + exists [Ev_free (buffer_addr k); Ev_sync]. split; [reflexivity|].
      repeat constructor; discriminate.
    + intros _. split; reflexivity.
    + intros Hm Hsize Hspec. apply Hpart; auto.
  - do 2 eexists. split; [exact Hrun|]. split; [|split].
    + exists [Ev_free p; Ev_free (buffer_addr k); Ev_sync]. split; [reflexivity|].
      repeat constructor; discriminate.
    + intros H0. apply Z.eqb_neq in Eres. contradiction.
    + intros Hm Hsize Hspec. apply Hpart; auto.
Qed.

(** C4.  Whatever the Record holds, [cdrom_set_block_shift] with a
    revised shift of 0 leaves the default 11 in it, and with any other
    value leaves exactly that value. *)
Theorem set_block_shift_policy (cmd : scst_cmd) k (p : addr)
    (r : cdrom_params) (shift : Z) :
  dh_priv (dev cmd) = Some p ->
  heap k !! p = Some (ObjParams r) ->
  exists k',
    cdrom_set_block_shift cmd shift k = Some (tt, k') /\
    heap k' = <[p := ObjParams {| block_shift :=
                       if shift =? 0 then CDROM_DEF_BLOCK_SHIFT else shift |}]>
                (heap k) /\
    (shift = 0 -> cdrom_get_block_shift cmd k' = Some (11, k')) /\
    (shift <> 0 -> cdrom_get_block_shift cmd k' = Some (shift, k')).
Proof.
  intros Hpriv Hlive.
  unfold cdrom_set_block_shift.
  destruct (Z.eqb_spec shift 0) as [e|ne]; simpl;
    unfold store_block_shift; rewrite Hpriv, Hlive;
    (eexists; split; [reflexivity|]; split; [reflexivity|]);
    unfold cdrom_get_block_shift, load_block_shift; rewrite Hpriv; simpl;
    rewrite lookup_insert_eq; split; intros H;
    try contradiction; reflexivity.
Qed.

(** C5.  When the SCSI device is absent or its type differs from the
    type of the device handle, [cdrom_attach] returns -ENODEV at once: no
    allocation request, no capacity query, kernel and handle untouched. *)
Theorem attach_type_mismatch (n : nat) d k :
  (scsi_dev d = None \/
   exists sdev, scsi_dev d = Some sdev /\ sd_type sdev <> dev_type d) ->
  exists k',
    cdrom_attach n d k = Some ((- ENODEV, d), k') /\
    - ENODEV <> 0 /\
    allocations (trace k') = allocations (trace k) /\
    attempts (trace k') = attempts (trace k) /\
    k' = k.
Proof.
  intros H. exists k. rewrite (attach_wrong_type n d k H).
  repeat split. unfold ENODEV. lia.
Qed.

(** C6.  When the shift has been determined and
    [scst_obtain_device_parameters] then fails, [cdrom_attach] frees the
    buffer and the Record, leaves the device handle as it was and returns
    the nonzero result of the synchronisation. *)
Theorem attach_sync_failure (n m : nat) d sdev k :
  type_matches d sdev ->
  allocs_served 2 (alloc_plan k) = true ->
  (m < n)%nat ->
  Z.of_nat m < SCST_DEV_UA_RETRIES < 2 ^ 31 ->
  (forall i, (i < m)%nat ->
     is_transient (nth_reply sdev (read_capacity_cdb sdev) (link k) i) = true) ->
  is_transient (nth_reply sdev (read_capacity_cdb sdev) (link k) m) = false ->
  fst (scst_obtain_device_parameters d
         (link_after (S m) sdev (read_capacity_cdb sdev) (link k))) <> 0 ->
  exists k',
    cdrom_attach n d k
    = Some ((fst (scst_obtain_device_parameters d
                    (link_after (S m) sdev (read_capacity_cdb sdev) (link k))),
             d), k') /\
    (exists tr,
       trace k' = Ev_free (params_addr k) :: Ev_free (buffer_addr k)
                  :: Ev_sync :: tr) /\
    heap k' = heap k.
Proof.
  intros Hty Hplan Hn Hr Hpre Hlast Hsync.
  pose proof (attach_break n m d sdev k Hty Hplan Hn Hr Hpre Hlast) as Hrun.
  cbv zeta in Hrun. apply Z.eqb_neq in Hsync. rewrite Hsync in Hrun.
  eexists. split; [exact Hrun|]. split; [|reflexivity].
  eexists. reflexivity.
Qed.

(** C7.  [cdrom_get_block_shift] returns the shift of the Record and
    leaves the kernel state alone; with a generic parser that does no
    more to the kernel state than its accessor, [cdrom_parse] returns
    SCST_CMD_STATE_DEFAULT with the retry count of the command set to
    SCST_PASSTHROUGH_RETRIES and the kernel state, Record included,
    unchanged.  For any generic parser, [cdrom_parse] returns exactly
    when the parser does, and then with that state and those two
    values. *)
Theorem parse_reads_only (G : generic_parse) (cmd : scst_cmd) k (p : addr)
    (r : cdrom_params) :
  dh_priv (dev cmd) = Some p ->
  heap k !! p = Some (ObjParams r) ->
  (forall c k0 v,
     cdrom_get_block_shift c k0 = Some (v, k0) ->
     exists res c', G c cdrom_get_block_shift k0 = Some ((res, c'), k0)) ->
  cdrom_get_block_shift cmd k = Some (block_shift r, k) /\
  (exists cmd',
     cdrom_parse G cmd k = Some ((SCST_CMD_STATE_DEFAULT, cmd'), k) /\
     retries cmd' = SCST_PASSTHROUGH_RETRIES) /\
  (forall (G' : generic_parse) c0 k0,
     cdrom_parse G' c0 k0
     = match G' c0 cdrom_get_block_shift k0 with
       | Some ((_, c1), k1) =>
         Some ((SCST_CMD_STATE_DEFAULT,
                set_retries SCST_PASSTHROUGH_RETRIES c1), k1)
       | None => None
       end).
Proof.
  intros Hpriv Hlive HG.
  assert (Hget : cdrom_get_block_shift cmd k = Some (block_shift r, k)).
  { unfold cdrom_get_block_shift, load_block_shift.
    rewrite Hpriv, Hlive. reflexivity. }
  split; [exact Hget|]. split.
  - destruct (HG cmd k (block_shift r) Hget) as (res & c' & HGrun).
    exists (set_retries SCST_PASSTHROUGH_RETRIES c').
    unfold cdrom_parse, bind. rewrite HGrun. split; reflexivity.
  - intros G' c0 k0. unfold cdrom_parse, bind.
    destruct (G' c0 cdrom_get_block_shift k0) as [[[res c1] k1]|]; reflexivity.
Qed.

(** C8.  On a device whose private pointer is NULL or a live Record,
    [cdrom_detach] returns (it has no failure of its own), the Record is
    gone from the heap, the private pointer is NULL so that the accessor
    finds no Record, and a second [cdrom_detach] changes nothing. *)
Theorem detach_releases_record d k :
  priv_ok d k ->
  exists k',
    cdrom_detach d k = Some (set_dh_priv None d, k') /\
    dh_priv (set_dh_priv None d) = None /\
    (forall p, dh_priv d = Some p ->
       heap k' = delete p (heap k) /\ heap k' !! p = None) /\
    (forall c, dev c = set_dh_priv None d ->
       cdrom_get_block_shift c k' = None) /\
    cdrom_detach (set_dh_priv None d) k' = Some (set_dh_priv None d, k').
Proof.
  unfold priv_ok, cdrom_detach, bind, kfree. intros Hok.
  destruct (dh_priv d) as [p|] eqn:Hpriv.
  - destruct Hok as [r Hlive]. rewrite Hlive. simpl.
    eexists. split; [reflexivity|]. split; [reflexivity|]. split; [|split].
    + intros p' Hp'. injection Hp' as <-. simpl.
      split; [reflexivity | apply lookup_delete_eq].
    + intros c Hc. unfold cdrom_get_block_shift. rewrite Hc. reflexivity.
    + reflexivity.
  - simpl. exists k. split; [reflexivity|]. split; [reflexivity|].
    split; [|split].
    + intros p Hp. discriminate.
    + intros c Hc. unfold cdrom_get_block_shift. rewrite Hc. reflexivity.
    + reflexivity.
Qed.

(** C9.  [cdrom_attach] returns, and does all or nothing: when it returns
    0 the device handle points to a Record at a fresh address and that
    Record is the only change to the heap (the buffer is gone); when it
    returns anything else the device handle and the heap are as before,
    every allocation made on the way having been freed. *)
Theorem attach_all_or_nothing (n : nat) d k :
  0 < SCST_DEV_UA_RETRIES < 2 ^ 31 ->
  (Z.to_nat SCST_DEV_UA_RETRIES <= n)%nat ->
  exists res d' k',
    cdrom_attach n d k = Some ((res, d'), k') /\
    (res = 0 ->
       heap k !! params_addr k = None /\
       d' = set_dh_priv (Some (params_addr k)) d /\
       exists r, heap k' = <[params_addr k := ObjParams r]> (heap k)) /\
    (res <> 0 -> d' = d /\ heap k' = heap k).
Proof.
  intros Hr Hn.
  assert (Hfail : forall res k',
            res <> 0 -> heap k' = heap k ->
            cdrom_attach n d k = Some ((res, d), k') ->
            exists res d' k',
              cdrom_attach n d k = Some ((res, d'), k') /\
              (res = 0 ->
                 heap k !! params_addr k = None /\
                 d' = set_dh_priv (Some (params_addr k)) d /\
                 exists r, heap k' = <[params_addr k := ObjParams r]> (heap k)) /\
              (res <> 0 -> d' = d /\ heap k' = heap k)).
  { intros res k' Hres Hheap Hrun. exists res, d, k'.
    split; [exact Hrun|]. split; [intros H0; contradiction|].
    intros _. split; [reflexivity | exact Hheap]. }
  destruct (scsi_dev d) as [sdev|] eqn:Hsd.
  2:{ apply (Hfail (- ENODEV) k); [unfold ENODEV; lia | reflexivity |].
      apply attach_wrong_type. left. exact Hsd. }
  destruct (Z.eq_dec (sd_type sdev) (dev_type d)) as [Hty|Hty].
  2:{ apply (Hfail (- ENODEV) k); [unfold ENODEV; lia | reflexivity |].
      apply attach_wrong_type. right. exists sdev. split; assumption. }
  assert (Hm : type_matches d sdev) by (split; assumption).
  destruct (hd false (alloc_plan k)) eqn:Hp1.
  { eapply (Hfail (- ENOMEM)); [unfold ENOMEM; lia | |].
    2:{ apply (attach_no_params n d sdev k Hm Hp1). }
    reflexivity. }
  destruct (hd false (tl (alloc_plan k))) eqn:Hp2.
  { eapply (Hfail (- ENOMEM)); [unfold ENOMEM; lia | |].
    2:{ apply (attach_no_buffer n d sdev k Hm Hp1 Hp2). }
    reflexivity. }
  assert (Hplan : allocs_served 2 (alloc_plan k) = true).
  { simpl. rewrite Hp1, Hp2. reflexivity. }
  destruct (Z.to_nat SCST_DEV_UA_RETRIES) as [|q] eqn:Eq; [lia|].
  destruct (replies_cases sdev (read_capacity_cdb sdev) (link k) (S q))
    as [(m & Hmq & Hpre & Hlast)|Hall].
  - pose proof (attach_break n m d sdev k Hm Hplan ltac:(lia) ltac:(lia)
                  Hpre Hlast) as Hrun.
    cbv zeta in Hrun.
    destruct (Z.eqb_spec
                (fst (scst_obtain_device_parameters d
                        (link_after (S m) sdev (read_capacity_cdb sdev) (link k))))
                0) as [Hres|Hres].
    + do 3 eexists. split; [exact Hrun|]. split.
      * intros _. split; [apply fresh_params|]. split; [reflexivity|].
        eexists. reflexivity.
      * intros Hnz. contradiction.
    + eapply Hfail; [exact Hres | | exact Hrun]. reflexivity.
  - eapply (Hfail (- ENODEV)); [unfold ENODEV; lia | |].
    2:{ apply (attach_exhausted n q d sdev k Hm Hplan); try lia.
        intros i Hi. apply Hall. lia. }
    reflexivity.
Qed.

(** C10.  [cdrom_set_block_shift] never leaves a zero shift in the
    Record: what it stores is the revised value when that is nonzero and
    the default 11 otherwise. *)
Theorem set_block_shift_nonzero (cmd : scst_cmd) k (p : addr)
    (r : cdrom_params) (shift : Z) :
  dh_priv (dev cmd) = Some p ->
  heap k !! p = Some (ObjParams r) ->
  exists k' v,
    cdrom_set_block_shift cmd shift k = Some (tt, k') /\
    heap k' !! p = Some (ObjParams {| block_shift := v |}) /\
    v <> 0 /\
    (shift <> 0 /\ v = shift \/ shift = 0 /\ v = CDROM_DEF_BLOCK_SHIFT).
Proof.
  intros Hpriv Hlive.
  unfold cdrom_set_block_shift.
  destruct (Z.eqb_spec shift 0) as [e|ne]; simpl;
    unfold store_block_shift; rewrite Hpriv, Hlive.
  - exists (emit (Ev_store p CDROM_DEF_BLOCK_SHIFT)
              (set_heap (<[p := ObjParams {| block_shift := CDROM_DEF_BLOCK_SHIFT |}]>
                           (heap k)) k)), CDROM_DEF_BLOCK_SHIFT.
    split; [reflexivity|]. split; [apply lookup_insert_eq|].
    split; [unfold CDROM_DEF_BLOCK_SHIFT; lia|]. right. split; [exact e | reflexivity].
  - exists (emit (Ev_store p shift)
              (set_heap (<[p := ObjParams {| block_shift := shift |}]> (heap k)) k)),
      shift.
    split; [reflexivity|]. split; [apply lookup_insert_eq|].
    split; [exact ne|]. left. split; [exact ne | reflexivity].
Qed.

End Proofs.

(** * Examples *)

(** The claim C1 as the spec words it fails on a transport that reports a
    unit attention for ever: every query is transient, and [cdrom_attach]
    returns -ENODEV with the device handle unchanged, not 0. *)
Lemma attach_transient_budget_not_success :
  (forall i,
     is_transient (F := always_ua)
       (nth_reply (F := always_ua) rom_scsi_device
          (read_capacity_cdb rom_scsi_device) 0%nat i) = true) /\
  fst <$> cdrom_attach 5 rom_device (boot_kernel always_ua 0%nat)
  = Some (- ENODEV, rom_device) /\
  ~ (exists d' k',
       cdrom_attach 5 rom_device (boot_kernel always_ua 0%nat)
       = Some ((0, d'), k')).
Proof.
  split; [intros i; reflexivity|]. split; [vm_compute; reflexivity|].
  intros (d' & k' & H). vm_compute in H. discriminate.
Qed.

Lemma attach_transient_budget_witness :
  exists k',
    cdrom_attach 5 rom_device (boot_kernel always_ua 0%nat)
    = Some ((- ENODEV, rom_device), k') /\
    attempts (trace k') = 5%nat /\
    heap k' = ∅.
Proof.
  destruct (attach_transient_budget (F := always_ua) 5 rom_device
              rom_scsi_device (boot_kernel always_ua 0%nat))
    as (k' & Hrun & Hcount & _ & Hheap).
  - split; reflexivity.
  - reflexivity.
  - simpl. lia.
  - simpl. lia.
  - intros i _. reflexivity.
  - exists k'. split; [exact Hrun|]. split; [|exact Hheap].
    change (Z.of_nat (attempts (trace k')) = 5) in Hcount. lia.
Defined.

Lemma attach_hard_failure_defaults_witness :
  exists k',
    cdrom_attach 5 rom_device (boot_kernel hard_failure 0%nat)
    = Some ((0, set_dh_priv (Some 1%positive) rom_device), k') /\
    attempts (trace k') = 1%nat /\
    heap k' = {[ 1%positive := ObjParams {| block_shift := 11 |} ]}.
Proof.
  destruct (attach_hard_failure_defaults (F := hard_failure) 5 rom_device
              rom_scsi_device (boot_kernel hard_failure 0%nat))
    as (k' & Hrun & Hcount & Hheap).
  - split; reflexivity.
  - reflexivity.
  - simpl. lia.
  - lia.
  - simpl. lia.
  - reflexivity.
  - reflexivity.
  - exists k'. split; [exact Hrun|]. split; [exact Hcount | exact Hheap].
Defined.

Lemma log2_meets_DeriveBlockShift_spec : DeriveBlockShift_spec Z.log2.
Proof. intros e He. rewrite Z.log2_pow2 by lia. reflexivity. Qed.

Lemma attach_success_parses_sector_size_witness :
  exists d' k',
    cdrom_attach 5 rom_device (boot_kernel reports_2048 0%nat)
    = Some ((0, d'), k') /\
    d' = set_dh_priv (Some 1%positive) rom_device /\
    heap k' = {[ 1%positive := ObjParams {| block_shift := 11 |} ]} /\
    attempts (trace k') = 1%nat.
Proof.
  destruct (attach_success_parses_sector_size (F := reports_2048) 5 0
              rom_device rom_scsi_device (boot_kernel reports_2048 0%nat))
    as (d' & k' & Hrun & _ & Hok & Hpart).
  - split; reflexivity.
  - reflexivity.
  - lia.
  - simpl. lia.
  - intros i Hi. lia.
  - reflexivity.
  - exists d', k'. split; [exact Hrun|].
    destruct (Hok eq_refl) as [Hd Hheap].
    destruct (Hpart eq_refl eq_refl log2_meets_DeriveBlockShift_spec)
      as [_ Hcount].
    split; [exact Hd|]. split; [exact Hheap | exact Hcount].
Defined.

Lemma set_block_shift_policy_witness :
  exists k',
    cdrom_set_block_shift some_cmd 0 (attached_kernel reports_2048 0%nat 9)
    = Some (tt, k') /\
    cdrom_get_block_shift some_cmd k' = Some (11, k').
Proof.
  destruct (set_block_shift_policy (F := reports_2048) some_cmd
              (attached_kernel reports_2048 0%nat 9) 1%positive
              {| block_shift := 9 |} 0)
    as (k' & Hrun & _ & Hzero & _).
  - reflexivity.
  - reflexivity.
  - exists k'. split; [exact Hrun | exact (Hzero eq_refl)].
Defined.

Lemma attach_type_mismatch_witness :
  exists k',
    cdrom_attach 5 disk_behind_rom_handler (boot_kernel reports_2048 0%nat)
    = Some ((- ENODEV, disk_behind_rom_handler), k') /\
    allocations (trace k') = 0%nat.
Proof.
  destruct (attach_type_mismatch (F := reports_2048) 5
              disk_behind_rom_handler (boot_kernel reports_2048 0%nat))
    as (k' & Hrun & _ & Halloc & _).
  - right. exists {| sd_type := 0; scsi_level := 3; lun := 0 |}.
    split; [reflexivity | simpl; lia].
  - exists k'. split; [exact Hrun | exact Halloc].
Defined.

Lemma attach_sync_failure_witness :
  exists k',
    cdrom_attach 5 rom_device (boot_kernel sync_fails 0%nat)
    = Some ((-5, rom_device), k') /\
    heap k' = ∅.
Proof.
  destruct (attach_sync_failure (F := sync_fails) 5 0 rom_device
              rom_scsi_device (boot_kernel sync_fails 0%nat))
    as (k' & Hrun & _ & Hheap).
  - split; reflexivity.
  - reflexivity.
  - lia.
  - simpl. lia.
  - intros i Hi. lia.
  - reflexivity.
  - simpl. lia.
  - exists k'. split; [exact Hrun | exact Hheap].
Defined.

Lemma parse_reads_only_witness :
  exists cmd',
    cdrom_parse (F := reports_2048) scaling_parse some_cmd
      (attached_kernel reports_2048 0%nat 11)
    = Some ((500, cmd'), attached_kernel reports_2048 0%nat 11) /\
    retries cmd' = 0.
Proof.
  destruct (parse_reads_only (F := reports_2048) scaling_parse some_cmd
              (attached_kernel reports_2048 0%nat 11) 1%positive
              {| block_shift := 11 |})
    as (_ & (cmd' & Hrun & Hretries) & _).
  - reflexivity.
  - reflexivity.
  - intros c k0 v Hget. unfold scaling_parse. rewrite Hget.
    eexists _, _. reflexivity.
  - exists cmd'. split; [exact Hrun | exact Hretries].
Defined.

Lemma detach_releases_record_witness :
  exists k',
    cdrom_detach attached_device (attached_kernel reports_2048 0%nat 11)
    = Some (rom_device, k') /\
    cdrom_detach rom_device k' = Some (rom_device, k').
Proof.
  destruct (detach_releases_record (F := reports_2048) attached_device
              (attached_kernel reports_2048 0%nat 11))
    as (k' & Hrun & _ & _ & _ & Hagain).
  - exists {| block_shift := 11 |}. reflexivity.
  - exists k'. split; [exact Hrun | exact Hagain].
Defined.

Lemma attach_all_or_nothing_witness :
  exists res d' k',
    cdrom_attach 5 rom_device (boot_kernel reports_2048 0%nat)
    = Some ((res, d'), k') /\
    (res <> 0 -> d' = rom_device /\ heap k' = ∅).
Proof.
  destruct (attach_all_or_nothing (F := reports_2048) 5 rom_device
              (boot_kernel reports_2048 0%nat))
    as (res & d' & k' & Hrun & _ & Hfail).
  - simpl. lia.
  - simpl. lia.
  - exists res, d', k'. split; [exact Hrun | exact Hfail].
Defined.

Lemma set_block_shift_nonzero_witness :
  exists k' v,
    cdrom_set_block_shift some_cmd 12 (attached_kernel reports_2048 0%nat 9)
    = Some (tt, k') /\
    heap k' !! 1%positive = Some (ObjParams {| block_shift := v |}) /\
    v <> 0.
Proof.
  destruct (set_block_shift_nonzero (F := reports_2048) some_cmd
              (attached_kernel reports_2048 0%nat 9) 1%positive
              {| block_shift := 9 |} 12)
    as (k' & v & Hrun & Hheap & Hnz & _).
  - reflexivity.
  - reflexivity.
  - exists k', v. split; [exact Hrun|]. split; [exact Hheap | exact Hnz].
Defined.

(** * Further properties of the handler *)

Section Coverage.

Context `{F : Framework}.

Implicit Types (k : kernel) (d : scst_device) (sdev : scsi_device).

#[local] Arguments link_after : simpl never.
#[local] Arguments nth_reply : simpl never.

Lemma allocations_app (t1 t2 : list event) :
  allocations (t1 ++ t2) = (allocations t1 + allocations t2)%nat.
Proof. unfold allocations. rewrite List.filter_app, length_app. reflexivity. Qed.

Lemma allocations_queries (q : nat) (cdb : list byte) :
  allocations (replicate q (Ev_exec cdb)) = 0%nat.
Proof. induction q as [|q IH]; [reflexivity | exact IH]. Qed.

Lemma allocations_attach_end k (cdb : list byte) (q : nat) (tail : list event)
    (h : gmap addr obj) (l : transport) :
  allocations (trace (attach_end k cdb q tail h l))
  = (allocations tail + 2 + allocations (trace k))%nat.
Proof.
  unfold attach_end, probe_trace. cbn [trace].
  rewrite !allocations_app, allocations_queries.
  unfold allocations at 2. simpl. fold (allocations (trace k)). lia.
Qed.

(** The five ways through [cdrom_attach], with the result of each. *)
Lemma attach_outcomes (n : nat) d k :
  0 < SCST_DEV_UA_RETRIES < 2 ^ 31 ->
  (Z.to_nat SCST_DEV_UA_RETRIES <= n)%nat ->
  ((forall sdev, ~ type_matches d sdev) /\
   cdrom_attach n d k = Some ((- ENODEV, d), k))
  \/ (exists sdev, type_matches d sdev /\
        hd false (alloc_plan k) = true /\
        cdrom_attach n d k
        = Some ((- ENOMEM, d),
                {| heap := heap k; alloc_plan := tl (alloc_plan k);
                   link := link k;
                   trace := Ev_alloc 4 None :: trace k |}))
  \/ (exists sdev, type_matches d sdev /\
        hd false (alloc_plan k) = false /\
        hd false (tl (alloc_plan k)) = true /\
        cdrom_attach n d k
        = Some ((- ENOMEM, d),
                {| heap := heap k; alloc_plan := tl (tl (alloc_plan k));
                   link := link k;
                   trace := Ev_free (params_addr k)
                            :: Ev_alloc buffer_size None
                            :: Ev_alloc 4 (Some (params_addr k))
                            :: trace k |}))
  \/ (exists sdev m, type_matches d sdev /\
        allocs_served 2 (alloc_plan k) = true /\
        Z.of_nat m < SCST_DEV_UA_RETRIES /\
        (forall i, (i < m)%nat ->
           is_transient (nth_reply sdev (read_capacity_cdb sdev) (link k) i) = true) /\
        is_transient (nth_reply sdev (read_capacity_cdb sdev) (link k) m) = false /\
        cdrom_attach n d k
        = let cdb := read_capacity_cdb sdev in
          let shift := probed_shift (nth_reply sdev cdb (link k) m) in
          let sync := scst_obtain_device_parameters d
                        (link_after (S m) sdev cdb (link k)) in
          let p := params_addr k in
          let b := buffer_addr k in
          if fst sync =? 0 then
            Some ((fst sync, set_dh_priv (Some p) d),
                  attach_end k cdb (S m) [Ev_free b; Ev_sync; Ev_store p shift]
                    (<[p := ObjParams {| block_shift := shift |}]> (heap k))
                    (snd sync))
          else
            Some ((fst sync, d),
                  attach_end k cdb (S m)
                    [Ev_free p; Ev_free b; Ev_sync; Ev_store p shift]
                    (heap k) (snd sync)))
  \/ (exists sdev q, type_matches d sdev /\
        allocs_served 2 (alloc_plan k) = true /\
        SCST_DEV_UA_RETRIES = Z.of_nat (S q) /\
        (forall i, (i <= q)%nat ->
           is_transient (nth_reply sdev (read_capacity_cdb sdev) (link k) i) = true) /\
        cdrom_attach n d k
        = Some ((- ENODEV, d),
                attach_end k (read_capacity_cdb sdev) (S q)
                  [Ev_free (params_addr k); Ev_free (buffer_addr k);
                   Ev_store (params_addr k) CDROM_DEF_BLOCK_SHIFT]
                  (heap k)
                  (link_after (S q) sdev (read_capacity_cdb sdev) (link k)))).
Proof.
  intros Hr Hn.
  destruct (scsi_dev d) as [sdev|] eqn:Hsd.
  2:{ left. split.
      - intros sdev [H _]. congruence.
      - apply attach_wrong_type. left. exact Hsd. }
  destruct (Z.eq_dec (sd_type sdev) (dev_type d)) as [Hty|Hty].
  2:{ left. split.
      - intros sdev' [H1 H2]. rewrite Hsd in H1. injection H1 as <-. contradiction.
      - apply attach_wrong_type. right. exists sdev. split; assumption. }
  assert (Hm : type_matches d sdev) by (split; assumption).
  right.
  destruct (hd false (alloc_plan k)) eqn:Hp1.
  { left. exists sdev. split; [exact Hm|]. split; [reflexivity|].
    apply (attach_no_params n d sdev k Hm Hp1). }
  right.
  destruct (hd false (tl (alloc_plan k))) eqn:Hp2.
  { left. exists sdev. split; [exact Hm|]. split; [reflexivity|].
    split; [reflexivity|]. apply (attach_no_buffer n d sdev k Hm Hp1 Hp2). }
  right.
  assert (Hplan : allocs_served 2 (alloc_plan k) = true).
  { simpl. rewrite Hp1, Hp2. reflexivity. }
  destruct (Z.to_nat SCST_DEV_UA_RETRIES) as [|q] eqn:Eq; [lia|].
  destruct (replies_cases sdev (read_capacity_cdb sdev) (link k) (S q))
    as [(m & Hmq & Hpre & Hlast)|Hall].
  - left. exists sdev, m. split; [exact Hm|]. split; [exact Hplan|].
    split; [lia|]. split; [exact Hpre|]. split; [exact Hlast|].
    apply (attach_break n m d sdev k Hm Hplan); try lia; assumption.
  - right. exists sdev, q. split; [exact Hm|]. split; [exact Hplan|].
    split; [lia|]. split; [intros i Hi; apply Hall; lia|].
    apply (attach_exhausted n q d sdev k Hm Hplan); try lia.
    intros i Hi. apply Hall. lia.
Qed.

(** X1.  When [kzalloc] or [kmalloc] fails, [cdrom_attach] returns -ENOMEM
    whatever the iteration bound: no capacity query is issued, the
    transport is not touched, and the heap and the device handle are as
    before (a Record that was already allocated has been freed). *)
Theorem attach_allocation_failure (n : nat) d sdev k :
  type_matches d sdev ->
  allocs_served 2 (alloc_plan k) = false ->
  exists k',
    cdrom_attach n d k = Some ((- ENOMEM, d), k') /\
    heap k' = heap k /\
    link k' = link k /\
    attempts (trace k') = attempts (trace k) /\
    (allocations (trace k) < allocations (trace k') <= allocations (trace k) + 2)%nat /\
    (hd false (alloc_plan k) = false ->
     exists tr, trace k' = Ev_free (params_addr k) :: tr).
Proof.
  intros Hm Hplan. simpl in Hplan.
  destruct (hd false (alloc_plan k)) eqn:Hp1.
  - eexists. split; [apply (attach_no_params n d sdev k Hm Hp1)|].
    cbn [heap link trace]. repeat split; try discriminate.
    + unfold allocations. simpl. lia.
    + unfold allocations. simpl. lia.
  - destruct (hd false (tl (alloc_plan k))) eqn:Hp2; [|discriminate].
    eexists. split; [apply (attach_no_buffer n d sdev k Hm Hp1 Hp2)|].
    cbn [heap link trace]. repeat split.
    + unfold allocations. simpl. lia.
    + unfold allocations. simpl. lia.
    + intros _. eexists. reflexivity.
Qed.

(** X2.  Whatever the transport answers, [cdrom_attach] returns after at
    most SCST_DEV_UA_RETRIES capacity queries and at most two allocation
    requests. *)
Theorem attach_queries_bounded (n : nat) d k :
  0 < SCST_DEV_UA_RETRIES < 2 ^ 31 ->
  (Z.to_nat SCST_DEV_UA_RETRIES <= n)%nat ->
  exists res d' k',
    cdrom_attach n d k = Some ((res, d'), k') /\
    (attempts (trace k) <= attempts (trace k')
     <= attempts (trace k) + Z.to_nat SCST_DEV_UA_RETRIES)%nat /\
    (allocations (trace k) <= allocations (trace k')
     <= allocations (trace k) + 2)%nat.
Proof.
  intros Hr Hn.
  destruct (attach_outcomes n d k Hr Hn)
    as [(_ & Hrun)
       |[(sdev & _ & _ & Hrun)
        |[(sdev & _ & _ & _ & Hrun)
         |[(sdev & m & _ & _ & Hm & _ & _ & Hrun)
          |(sdev & q & _ & _ & Hq & _ & Hrun)]]]].
  - do 3 eexists. split; [exact Hrun|]. lia.
  - do 3 eexists. split; [exact Hrun|]. cbn [trace].
    unfold attempts, allocations. simpl. lia.
  - do 3 eexists. split; [exact Hrun|]. cbn [trace].
    unfold attempts, allocations. simpl. lia.
  - cbv zeta in Hrun.
    destruct (fst (scst_obtain_device_parameters d
                     (link_after (S m) sdev (read_capacity_cdb sdev) (link k))) =? 0);
      (do 3 eexists; split; [exact Hrun|]);
      rewrite attempts_attach_end, allocations_attach_end;
      unfold attempts at 1 3, allocations at 2 4; simpl; lia.
  - do 3 eexists. split; [exact Hrun|].
    rewrite attempts_attach_end, allocations_attach_end.
    unfold attempts at 1 3, allocations at 2 4. simpl. lia.
Qed.

(** X3.  The budget counts queries, not retries after the first one: when
    query number [m] (from 0) is the first that does not fail with a unit
    attention and [m] is below SCST_DEV_UA_RETRIES, so also when it is the
    last query of the budget, [cdrom_attach] uses its reply, issues
    exactly [m + 1] queries and returns the result of the parameter
    synchronisation run on the transport after those queries. *)
Theorem attach_first_definite_reply (n m : nat) d sdev k :
  type_matches d sdev ->
  allocs_served 2 (alloc_plan k) = true ->
  (m < n)%nat ->
  Z.of_nat m < SCST_DEV_UA_RETRIES < 2 ^ 31 ->
  (forall i, (i < m)%nat ->
     is_transient (nth_reply sdev (read_capacity_cdb sdev) (link k) i) = true) ->
  is_transient (nth_reply sdev (read_capacity_cdb sdev) (link k) m) = false ->
  exists d' k',
    cdrom_attach n d k
    = Some ((fst (scst_obtain_device_parameters d
                    (link_after (S m) sdev (read_capacity_cdb sdev) (link k))),
             d'), k') /\
    attempts (trace k') = (attempts (trace k) + S m)%nat /\
    link k' = snd (scst_obtain_device_parameters d
                     (link_after (S m) sdev (read_capacity_cdb sdev) (link k))) /\
    In (Ev_store (params_addr k)
          (probed_shift (nth_reply sdev (read_capacity_cdb sdev) (link k) m)))
       (trace k').
Proof.
  intros Hty Hplan Hn Hr Hpre Hlast.
  pose proof (attach_break n m d sdev k Hty Hplan Hn Hr Hpre Hlast) as Hrun.
  cbv zeta in Hrun.
  destruct (fst (scst_obtain_device_parameters d
                   (link_after (S m) sdev (read_capacity_cdb sdev) (link k))) =? 0);
    (do 2 eexists; split; [exact Hrun|]);
    (split; [rewrite attempts_attach_end; unfold attempts at 1; simpl; lia|]);
    (split; [reflexivity|]); cbn [trace attach_end]; simpl; tauto.
Qed.

(** What a return of 0 tells about the run. *)
Lemma attach_success_shape (n : nat) d k d' k' :
  0 < SCST_DEV_UA_RETRIES < 2 ^ 31 ->
  (Z.to_nat SCST_DEV_UA_RETRIES <= n)%nat ->
  cdrom_attach n d k = Some ((0, d'), k') ->
  exists sdev m,
    type_matches d sdev /\
    allocs_served 2 (alloc_plan k) = true /\
    Z.of_nat m < SCST_DEV_UA_RETRIES /\
    (forall i, (i < m)%nat ->
       is_transient (nth_reply sdev (read_capacity_cdb sdev) (link k) i) = true) /\
    is_transient (nth_reply sdev (read_capacity_cdb sdev) (link k) m) = false /\
    fst (scst_obtain_device_parameters d
           (link_after (S m) sdev (read_capacity_cdb sdev) (link k))) = 0 /\
    d' = set_dh_priv (Some (params_addr k)) d /\
    heap k' = <[params_addr k :=
                  ObjParams {| block_shift :=
                    probed_shift (nth_reply sdev (read_capacity_cdb sdev) (link k) m) |}]>
                (heap k).
Proof.
  intros Hr Hn Hrun.
  destruct (attach_outcomes n d k Hr Hn)
    as [(_ & Hrun')
       |[(sdev & _ & _ & Hrun')
        |[(sdev & _ & _ & _ & Hrun')
         |[(sdev & m & Hty & Hplan & Hm & Hpre & Hlast & Hrun')
          |(sdev & q & _ & _ & Hq & _ & Hrun')]]]];
    rewrite Hrun in Hrun'; try discriminate.
  cbv zeta in Hrun'.
  destruct (Z.eqb_spec
              (fst (scst_obtain_device_parameters d
                      (link_after (S m) sdev (read_capacity_cdb sdev) (link k))))
              0) as [Hres|Hres].
  - injection Hrun' as _ Hd Hk. exists sdev, m.
    repeat (split; [assumption|]).
    rewrite Hk. reflexivity.
  - injection Hrun' as Hz _ _. symmetry in Hz. contradiction.
Qed.

(** X4.  [cdrom_attach] returns 0 exactly when the type check passes, both
    allocations are served, some query within the budget is the first not
    to fail with a unit attention, and the parameter synchronisation that
    follows it returns 0. *)
Theorem attach_success_iff (n : nat) d k :
  0 < SCST_DEV_UA_RETRIES < 2 ^ 31 ->
  (Z.to_nat SCST_DEV_UA_RETRIES <= n)%nat ->
  (exists d' k', cdrom_attach n d k = Some ((0, d'), k'))
  <->
  (exists sdev m,
     type_matches d sdev /\
     allocs_served 2 (alloc_plan k) = true /\
     Z.of_nat m < SCST_DEV_UA_RETRIES /\
     (forall i, (i < m)%nat ->
        is_transient (nth_reply sdev (read_capacity_cdb sdev) (link k) i) = true) /\
     is_transient (nth_reply sdev (read_capacity_cdb sdev) (link k) m) = false /\
     fst (scst_obtain_device_parameters d
            (link_after (S m) sdev (read_capacity_cdb sdev) (link k))) = 0).
Proof.
  intros Hr Hn. split.
  - intros (d' & k' & Hrun).
    destruct (attach_success_shape n d k d' k' Hr Hn Hrun)
      as (sdev & m & H1 & H2 & H3 & H4 & H5 & H6 & _).
    exists sdev, m. repeat (split; [assumption|]). exact H6.
  - intros (sdev & m & Hty & Hplan & Hm & Hpre & Hlast & Hsync).
    pose proof (attach_break n m d sdev k Hty Hplan ltac:(lia) ltac:(lia)
                  Hpre Hlast) as Hrun.
    cbv zeta in Hrun. rewrite Hsync in Hrun. simpl in Hrun.
    do 2 eexists. exact Hrun.
Qed.

(** X5.  [cdrom_attach] makes no allocation request exactly when the type
    check fails: any handle whose SCSI device has the type of the handle
    gets as far as [kzalloc], whatever that type is. *)
Theorem attach_allocates_iff_type_ok (n : nat) d k :
  0 < SCST_DEV_UA_RETRIES < 2 ^ 31 ->
  (Z.to_nat SCST_DEV_UA_RETRIES <= n)%nat ->
  exists res d' k',
    cdrom_attach n d k = Some ((res, d'), k') /\
    (allocations (trace k') = allocations (trace k)
     <-> forall sdev, ~ type_matches d sdev).
Proof.
  intros Hr Hn.
  destruct (attach_outcomes n d k Hr Hn)
    as [(Hno & Hrun)
       |[(sdev & Hty & _ & Hrun)
        |[(sdev & Hty & _ & _ & Hrun)
         |[(sdev & m & Hty & _ & _ & _ & _ & Hrun)
          |(sdev & q & Hty & _ & _ & _ & Hrun)]]]].
  - do 3 eexists. split; [exact Hrun|]. split; [intros _; exact Hno | reflexivity].
  - do 3 eexists. split; [exact Hrun|]. cbn [trace]. split.
    + unfold allocations. simpl. lia.
    + intros Hno. destruct (Hno sdev Hty).
  - do 3 eexists. split; [exact Hrun|]. cbn [trace]. split.
    + unfold allocations. simpl. lia.
    + intros Hno. destruct (Hno sdev Hty).
  - cbv zeta in Hrun.
    destruct (fst (scst_obtain_device_parameters d
                     (link_after (S m) sdev (read_capacity_cdb sdev) (link k))) =? 0);
      (do 3 eexists; split; [exact Hrun|]);
      rewrite allocations_attach_end;
      (split; [lia | intros Hno; destruct (Hno sdev Hty)]).
  - do 3 eexists. split; [exact Hrun|].
    rewrite allocations_attach_end.
    split; [lia | intros Hno; destruct (Hno sdev Hty)].
Qed.

(** X6.  [cdrom_detach] undoes a successful [cdrom_attach]: it returns,
    the heap is the one from before the attach and the private pointer is
    NULL. *)
Theorem attach_detach_round_trip (n : nat) d k d' k' :
  0 < SCST_DEV_UA_RETRIES < 2 ^ 31 ->
  (Z.to_nat SCST_DEV_UA_RETRIES <= n)%nat ->
  cdrom_attach n d k = Some ((0, d'), k') ->
  exists k'',
    cdrom_detach d' k' = Some (set_dh_priv None d, k'') /\
    heap k'' = heap k.
Proof.
  intros Hr Hn Hrun.
  destruct (attach_success_shape n d k d' k' Hr Hn Hrun)
    as (sdev & m & _ & _ & _ & _ & _ & _ & Hd & Hheap).
  unfold cdrom_detach, bind, kfree. rewrite Hd. cbn [dh_priv set_dh_priv].
  rewrite Hheap, lookup_insert_eq.
  eexists. split; [reflexivity|]. cbn [heap emit set_heap].
  apply heap_release_params, fresh_params.
Qed.

(** X7.  After a successful [cdrom_attach] the accessor finds the Record:
    for every command on the device [cdrom_get_block_shift] returns,
    without changing the kernel, one value that is the default 11 or what
    [scst_calc_block_shift] made of a nonzero sector size. *)
Theorem attach_then_get_block_shift (n : nat) d k d' k' :
  0 < SCST_DEV_UA_RETRIES < 2 ^ 31 ->
  (Z.to_nat SCST_DEV_UA_RETRIES <= n)%nat ->
  cdrom_attach n d k = Some ((0, d'), k') ->
  exists v,
    (forall cmd, dev cmd = d' -> cdrom_get_block_shift cmd k' = Some (v, k')) /\
    (v = CDROM_DEF_BLOCK_SHIFT \/
     exists size, size <> 0 /\ v = scst_calc_block_shift size).
Proof.
  intros Hr Hn Hrun.
  destruct (attach_success_shape n d k d' k' Hr Hn Hrun)
    as (sdev & m & _ & _ & _ & _ & _ & _ & Hd & Hheap).
  eexists. split.
  - intros cmd Hcmd. unfold cdrom_get_block_shift, load_block_shift.
    rewrite Hcmd, Hd. cbn [dh_priv set_dh_priv].
    rewrite Hheap, lookup_insert_eq. reflexivity.
  - cbn [block_shift]. unfold probed_shift.
    destruct (rc _ =? 0); [|left; reflexivity].
    destruct (Z.eqb_spec
                (reply_sector_size
                   (nth_reply sdev (read_capacity_cdb sdev) (link k) m)) 0)
      as [e|ne]; [left; reflexivity|].
    right. eexists. split; [exact ne | reflexivity].
Qed.

(** X9.  [cdrom_attach] does not look at the private pointer it finds: on
    a handle that already points to a live object, a successful attach
    leaves that object allocated and makes the handle point to the new
    Record at another address. *)
Theorem attach_keeps_previous_record (n : nat) d k d' k' (q : addr) (o : obj) :
  0 < SCST_DEV_UA_RETRIES < 2 ^ 31 ->
  (Z.to_nat SCST_DEV_UA_RETRIES <= n)%nat ->
  dh_priv d = Some q ->
  heap k !! q = Some o ->
  cdrom_attach n d k = Some ((0, d'), k') ->
  heap k' !! q = Some o /\
  exists p, dh_priv d' = Some p /\ p <> q /\ is_Some (heap k' !! p).
Proof.
  intros Hr Hn Hq Ho Hrun.
  destruct (attach_success_shape n d k d' k' Hr Hn Hrun)
    as (sdev & m & _ & _ & _ & _ & _ & _ & Hd & Hheap).
  assert (Hne : params_addr k <> q).
  { intros e. pose proof (fresh_params k) as Hf. rewrite e in Hf. congruence. }
  split.
  - rewrite Hheap, lookup_insert_ne by exact Hne. exact Ho.
  - exists (params_addr k). rewrite Hd. split; [reflexivity|].
    split; [exact Hne|]. rewrite Hheap, lookup_insert_eq. eexists. reflexivity.
Qed.

(** ** The bytes of the buffer and of the command block *)

Lemma byte_val_zero (b : byte) : byte_val b = 0 -> b = x00.
Proof.
  unfold byte_val. intros H.
  assert (Hn : Byte.to_N b = 0%N) by lia.
  pose proof (Byte.of_to_N b) as Hb. rewrite Hn in Hb.
  simpl in Hb. congruence.
Qed.

Lemma byte_val_to_u8 (z : Z) : byte_val (to_u8 z) = z mod 256.
Proof.
  pose proof (Z.mod_pos_bound z 256 ltac:(lia)) as Hz.
  unfold byte_val, to_u8.
  destruct (Byte.of_N (Z.to_N (z mod 256))) as [b|] eqn:E.
  - apply Byte.to_of_N in E. rewrite E. lia.
  - apply Byte.of_N_None_iff in E. lia.
Qed.



(** X10.  The command block of the capacity query has ten bytes: the
    opcode 0x25, then for a device up to SCSI-2 the low three bits of the
    LUN in bits 5 to 7 and nothing in bits 0 to 4, for a later device
    zero, then eight zero bytes. *)
Theorem read_capacity_cdb_layout sdev :
  length (read_capacity_cdb sdev) = 10%nat /\
  nth 0 (read_capacity_cdb sdev) x00 = x25 /\
  byte_val (nth 1 (read_capacity_cdb sdev) x00)
  = (if scsi_level sdev <=? SCSI_2 then (lun sdev mod 8) * 32 else 0) /\
  (forall i, (2 <= i)%nat -> nth i (read_capacity_cdb sdev) x00 = x00).
Proof.
  unfold read_capacity_cdb. split; [reflexivity|]. split; [reflexivity|]. split.
  - cbn [nth]. rewrite byte_val_to_u8.
    destruct (scsi_level sdev <=? SCSI_2); [|reflexivity].
    change 224 with (Z.shiftl 7 5). rewrite <- Z.shiftl_land.
    change 7 with (Z.ones 3). rewrite Z.land_ones by lia.
    rewrite Z.shiftl_mul_pow2 by lia.
    pose proof (Z.mod_pos_bound (lun sdev) (2 ^ 3) ltac:(lia)) as Hb.
    change (2 ^ 3) with 8 in *. change (2 ^ 5) with 32.
    apply Z.mod_small. lia.
  - intros i Hi. do 2 (destruct i as [|i]; [lia|]). cbn [nth].
    do 8 (destruct i as [|i]; [reflexivity|]). destruct i; reflexivity.
Qed.

(** X11.  The sector size read from the buffer is zero exactly when the
    four bytes are zero, so only then does the default apply; it always
    fits an [int], and it is negative exactly when the top bit of byte 4
    is set (such a size is nonzero and goes to
    [scst_calc_block_shift]). *)
Theorem sector_size_zero_iff (b4 b5 b6 b7 : byte) :
  (sector_size_of b4 b5 b6 b7 = 0
   <-> b4 = x00 /\ b5 = x00 /\ b6 = x00 /\ b7 = x00) /\
  - 2 ^ 31 <= sector_size_of b4 b5 b6 b7 < 2 ^ 31 /\
  (sector_size_of b4 b5 b6 b7 < 0 <-> 128 <= byte_val b4).
Proof.
  rewrite sector_size_big_endian.
  pose proof (byte_val_range b4). pose proof (byte_val_range b5).
  pose proof (byte_val_range b6). pose proof (byte_val_range b7).
  set (v := byte_val b4 * 2 ^ 24 + byte_val b5 * 2 ^ 16
            + byte_val b6 * 2 ^ 8 + byte_val b7).
  assert (Hv : 0 <= v < 2 ^ 32) by (unfold v; lia).
  assert (Hw : wrap_int v = if v <? 2 ^ 31 then v else v - 2 ^ 32).
  { unfold wrap_int. destruct (Z.ltb_spec v (2 ^ 31)).
    - rewrite Z.mod_small by lia. lia.
    - replace (v + 2 ^ 31) with (v - 2 ^ 31 + 1 * 2 ^ 32) by lia.
      rewrite Z.mod_add by lia. rewrite Z.mod_small by lia. lia. }
  rewrite Hw. split; [|split].
  - split.
    + intros Hzero.
      assert (Hz : v = 0) by (destruct (Z.ltb_spec v (2 ^ 31)); lia).
      unfold v in Hz.
      repeat split; apply byte_val_zero; lia.
    + intros (-> & -> & -> & ->). reflexivity.
  - destruct (Z.ltb_spec v (2 ^ 31)); lia.
  - unfold v in *. destruct (Z.ltb_spec
      (byte_val b4 * 2 ^ 24 + byte_val b5 * 2 ^ 16 + byte_val b6 * 2 ^ 8
       + byte_val b7) (2 ^ 31)); lia.
Qed.

(** ** The setter and the completion callback *)

(** What [cdrom_set_block_shift] does to a kernel in which the Record of
    the command is live. *)
Lemma set_block_shift_run (cmd : scst_cmd) k (p : addr) (r : cdrom_params)
    (shift : Z) :
  dh_priv (dev cmd) = Some p ->
  heap k !! p = Some (ObjParams r) ->
  cdrom_set_block_shift cmd shift k
  = let v := if shift =? 0 then CDROM_DEF_BLOCK_SHIFT else shift in
    Some (tt, emit (Ev_store p v)
                (set_heap (<[p := ObjParams {| block_shift := v |}]> (heap k)) k)).
Proof.
  intros Hpriv Hlive. unfold cdrom_set_block_shift.
  destruct (shift =? 0); simpl; unfold store_block_shift;
    rewrite Hpriv, Hlive; reflexivity.
Qed.

(** X12.  Calls of [cdrom_set_block_shift] do not accumulate: after two
    calls the heap is what the second call alone would have made of it,
    and nothing but the Record of the command has changed. *)
Theorem set_block_shift_last_wins (cmd : scst_cmd) k (p : addr)
    (r : cdrom_params) (s1 s2 : Z) :
  dh_priv (dev cmd) = Some p ->
  heap k !! p = Some (ObjParams r) ->
  exists k1 k2 k2',
    cdrom_set_block_shift cmd s1 k = Some (tt, k1) /\
    cdrom_set_block_shift cmd s2 k1 = Some (tt, k2) /\
    cdrom_set_block_shift cmd s2 k = Some (tt, k2') /\
    heap k2 = heap k2' /\
    (forall a, a <> p -> heap k2 !! a = heap k !! a) /\
    alloc_plan k2 = alloc_plan k /\
    link k2 = link k.
Proof.
  intros Hpriv Hlive.
  pose proof (set_block_shift_run cmd k p r s1 Hpriv Hlive) as H1.
  pose proof (set_block_shift_run cmd k p r s2 Hpriv Hlive) as H2.
  cbv zeta in H1, H2.
  do 3 eexists. split; [exact H1|]. split.
  - erewrite set_block_shift_run; [reflexivity | exact Hpriv |].
    cbn [heap emit set_heap]. apply lookup_insert_eq.
  - split; [exact H2|]. cbn [heap emit set_heap alloc_plan link].
    split; [apply insert_insert_eq|]. split; [|split; reflexivity].
    intros a Ha. rewrite !lookup_insert_ne by congruence. reflexivity.
Qed.

(** X13.  [cdrom_detach] on a handle without a Record is [kfree(NULL)] and
    changes nothing at all; on a handle with a Record it frees that
    object once and touches no other object, nor the allocator or the
    transport. *)
Theorem detach_frame d k :
  priv_ok d k ->
  exists k',
    cdrom_detach d k = Some (set_dh_priv None d, k') /\
    (dh_priv d = None -> k' = k) /\
    (forall p, dh_priv d = Some p -> trace k' = Ev_free p :: trace k) /\
    (forall a, dh_priv d <> Some a -> heap k' !! a = heap k !! a) /\
    alloc_plan k' = alloc_plan k /\
    link k' = link k.
Proof.
  unfold priv_ok, cdrom_detach, bind, kfree. intros Hok.
  destruct (dh_priv d) as [p|] eqn:Hpriv.
  - destruct Hok as [r Hlive]. rewrite Hlive.
    eexists. split; [reflexivity|]. cbn [heap emit set_heap alloc_plan link trace].
    split; [discriminate|]. split.
    + intros p' Hp'. injection Hp' as <-. reflexivity.
    + split; [|split; reflexivity].
      intros a Ha. apply lookup_delete_ne. congruence.
  - exists k. split; [reflexivity|]. split; [reflexivity|].
    split; [discriminate|]. repeat split.
Qed.

Lemma set_block_shift_keeps_nonzero (cmd : scst_cmd) (shift : Z) k k' :
  shifts_nonzero k ->
  cdrom_set_block_shift cmd shift k = Some (tt, k') ->
  shifts_nonzero k'.
Proof.
  intros Hinv Hrun.
  assert (Hstore : forall v, v <> 0 ->
            store_block_shift (dh_priv (dev cmd)) v k = Some (tt, k') ->
            shifts_nonzero k').
  { intros v Hv Hst. unfold store_block_shift in Hst.
    destruct (dh_priv (dev cmd)) as [p|]; [|discriminate].
    destruct (heap k !! p) as [[r0| |]|] eqn:Hp; try discriminate.
    injection Hst as <-. intros a r Ha. cbn [heap emit set_heap] in Ha.
    destruct (decide (a = p)) as [->|Hne].
    - rewrite lookup_insert_eq in Ha. injection Ha as <-. exact Hv.
    - rewrite lookup_insert_ne in Ha by congruence. exact (Hinv a r Ha). }
  unfold cdrom_set_block_shift in Hrun.
  destruct (Z.eqb_spec shift 0) as [e|ne]; simpl in Hrun.
  - apply (Hstore CDROM_DEF_BLOCK_SHIFT); [unfold CDROM_DEF_BLOCK_SHIFT; lia | exact Hrun].
  - apply (Hstore shift); assumption.
Qed.

(** X14.  [cdrom_done] returns exactly when, and what, the generic
    completion routine returns; with a routine that changes the kernel
    only through the setter it is given, however often and for whatever
    commands and values it calls it, a heap in which no Record holds a
    zero shift stays such a heap. *)
Theorem done_keeps_shifts_nonzero (G : generic_dev_done) (cmd : scst_cmd) k :
  (forall (I : kernel -> Prop) (set : scst_cmd -> Z -> M unit) c k0,
     (forall c' s k1 k2, I k1 -> set c' s k1 = Some (tt, k2) -> I k2) ->
     I k0 ->
     forall res k1, G c set k0 = Some (res, k1) -> I k1) ->
  shifts_nonzero k ->
  cdrom_done G cmd k = G cmd cdrom_set_block_shift k /\
  (forall res k', cdrom_done G cmd k = Some (res, k') -> shifts_nonzero k').
Proof.
  intros HG Hinv.
  assert (Heq : cdrom_done G cmd k = G cmd cdrom_set_block_shift k).
  { unfold cdrom_done, bind, ret.
    destruct (G cmd cdrom_set_block_shift k) as [[res k']|]; reflexivity. }
  split; [exact Heq|].
  intros res k' Hrun. rewrite Heq in Hrun.
  eapply (HG shifts_nonzero cdrom_set_block_shift cmd k); [|exact Hinv|exact Hrun].
  intros c' s k1 k2 H1 Hset. exact (set_block_shift_keeps_nonzero c' s k1 k2 H1 Hset).
Qed.

End Coverage.

(** ** Loading and unloading the module *)

(** X15.  [cdrom_init] calls [scst_unregister_dev_driver] exactly when the
    registration was accepted and building the proc entries then failed,
    and it does so last; a negative result therefore never leaves the
    driver registered, and a result of 0 means that nothing was taken
    back and that the proc entries were built if they are configured. *)
Theorem init_takes_back_on_failure (CONFIG_SCST_PROC : bool)
    (register_res proc_res : Z) :
  let res := fst (cdrom_init CONFIG_SCST_PROC register_res proc_res) in
  let calls := snd (cdrom_init CONFIG_SCST_PROC register_res proc_res) in
  (In Call_unregister calls
   <-> CONFIG_SCST_PROC = true /\ 0 <= register_res /\ proc_res <> 0) /\
  (In Call_unregister calls ->
   res = proc_res /\ last calls = Some Call_unregister) /\
  (res < 0 ->
   register_res < 0 /\ calls = [Call_register] \/ In Call_unregister calls) /\
  (res = 0 ->
   ~ In Call_unregister calls /\
   (In Call_build_std_proc calls <-> CONFIG_SCST_PROC = true)).
Proof.
  unfold cdrom_init.
  destruct (Z.ltb_spec register_res 0) as [Hneg|Hpos];
    destruct CONFIG_SCST_PROC;
    try destruct (Z.eqb_spec proc_res 0) as [Hp|Hp];
    cbn [fst snd negb In]; simpl last;
    repeat split; intros;
    repeat match goal with
           | H : _ /\ _ |- _ => destruct H
           | H : _ \/ _ |- _ => destruct H
           | H : False |- _ => destruct H
           end;
    try discriminate; try lia; try tauto; auto;
    intros Hc; intuition discriminate.
Qed.

(** X16.  After a [cdrom_init] that returned 0, [cdrom_exit] takes back
    what the load set up, in the reverse order. *)
Theorem exit_undoes_init (CONFIG_SCST_PROC : bool) (register_res proc_res : Z) :
  fst (cdrom_init CONFIG_SCST_PROC register_res proc_res) = 0 ->
  cdrom_exit CONFIG_SCST_PROC
  = map undo_call
      (rev (snd (cdrom_init CONFIG_SCST_PROC register_res proc_res))).
Proof.
  unfold cdrom_init, cdrom_exit.
  destruct (Z.ltb_spec register_res 0) as [Hneg|Hpos];
    destruct CONFIG_SCST_PROC;
    try destruct (Z.eqb_spec proc_res 0) as [Hp|Hp];
    cbn [fst snd negb]; intros H; try lia; reflexivity.
Qed.

(** ** Examples for the further properties *)

Lemma attach_allocation_failure_witness :
  exists k',
    cdrom_attach 0 rom_device
      (@mk_kernel reports_2048 ∅ [false; true] 0%nat [])
    = Some ((- ENOMEM, rom_device), k') /\
    heap k' = ∅ /\
    attempts (trace k') = 0%nat.
Proof.
  destruct (attach_allocation_failure (F := reports_2048) 0 rom_device
              rom_scsi_device
              (@mk_kernel reports_2048 ∅ [false; true] 0%nat []))
    as (k' & Hrun & Hheap & _ & Hcount & _).
  - split; reflexivity.
  - reflexivity.
  - exists k'. split; [exact Hrun|]. split; [exact Hheap | exact Hcount].
Defined.

Lemma attach_queries_bounded_witness :
  exists res d' k',
    cdrom_attach 5 rom_device (boot_kernel always_ua 0%nat)
    = Some ((res, d'), k') /\
    (attempts (trace k') <= 5)%nat.
Proof.
  destruct (attach_queries_bounded (F := always_ua) 5 rom_device
              (boot_kernel always_ua 0%nat))
    as (res & d' & k' & Hrun & Hq & _).
  - simpl. lia.
  - simpl. lia.
  - exists res, d', k'. split; [exact Hrun|].
    change (0 <= attempts (trace k') <= 0 + 5)%nat in Hq. lia.
Defined.

Lemma attach_first_definite_reply_witness :
  exists d' k',
    cdrom_attach 5 rom_device (boot_kernel late_success 0%nat)
    = Some ((0, d'), k') /\
    attempts (trace k') = 5%nat.
Proof.
  destruct (attach_first_definite_reply (F := late_success) 5 4 rom_device
              rom_scsi_device (boot_kernel late_success 0%nat))
    as (d' & k' & Hrun & Hq & _).
  - split; reflexivity.
  - reflexivity.
  - lia.
  - simpl. lia.
  - intros i Hi.
    do 4 (destruct i as [|i]; [reflexivity|]). lia.
  - reflexivity.
  - exists d', k'. split; [exact Hrun | exact Hq].
Defined.

Lemma attach_success_iff_witness :
  exists d' k',
    cdrom_attach 5 rom_device (boot_kernel late_success 0%nat)
    = Some ((0, d'), k').
Proof.
  apply (attach_success_iff (F := late_success) 5 rom_device
           (boot_kernel late_success 0%nat)).
  - simpl. lia.
  - simpl. lia.
  - exists rom_scsi_device, 4%nat.
    split; [split; reflexivity|]. split; [reflexivity|].
    split; [simpl; lia|]. split.
    + intros i Hi. do 4 (destruct i as [|i]; [reflexivity|]). lia.
    + split; reflexivity.
Defined.

Lemma attach_allocates_iff_type_ok_witness :
  exists res d' k',
    cdrom_attach 5 disk_behind_rom_handler (boot_kernel reports_2048 0%nat)
    = Some ((res, d'), k') /\
    (allocations (trace k') = 0%nat
     <-> forall sdev, ~ type_matches disk_behind_rom_handler sdev).
Proof.
  destruct (attach_allocates_iff_type_ok (F := reports_2048) 5
              disk_behind_rom_handler (boot_kernel reports_2048 0%nat))
    as (res & d' & k' & Hrun & Hiff).
  - simpl. lia.
  - simpl. lia.
  - exists res, d', k'. split; [exact Hrun | exact Hiff].
Defined.

Lemma attach_detach_round_trip_witness :
  exists d' k' k'',
    cdrom_attach 5 rom_device (boot_kernel reports_2048 0%nat)
    = Some ((0, d'), k') /\
    cdrom_detach d' k' = Some (rom_device, k'') /\
    heap k'' = ∅.
Proof.
  assert (Hrun : exists d' k',
            cdrom_attach 5 rom_device (boot_kernel reports_2048 0%nat)
            = Some ((0, d'), k')) by (do 2 eexists; reflexivity).
  destruct Hrun as (d' & k' & Hrun).
  destruct (attach_detach_round_trip (F := reports_2048) 5 rom_device
              (boot_kernel reports_2048 0%nat) d' k')
    as (k'' & Hdetach & Hheap).
  - simpl. lia.
  - simpl. lia.
  - exact Hrun.
  - exists d', k', k''. split; [exact Hrun|]. split; [exact Hdetach | exact Hheap].
Defined.

Lemma attach_then_get_block_shift_witness :
  exists d' k' v,
    cdrom_attach 5 rom_device (boot_kernel reports_2048 0%nat)
    = Some ((0, d'), k') /\
    cdrom_get_block_shift {| dev := d'; retries := 0; bufflen := 0 |} k'
    = Some (v, k').
Proof.
  assert (Hrun : exists d' k',
            cdrom_attach 5 rom_device (boot_kernel reports_2048 0%nat)
            = Some ((0, d'), k')) by (do 2 eexists; reflexivity).
  destruct Hrun as (d' & k' & Hrun).
  destruct (attach_then_get_block_shift (F := reports_2048) 5 rom_device
              (boot_kernel reports_2048 0%nat) d' k')
    as (v & Hget & _).
  - simpl. lia.
  - simpl. lia.
  - exact Hrun.
  - exists d', k', v. split; [exact Hrun|]. apply Hget. reflexivity.
Defined.


Lemma attach_keeps_previous_record_witness :
  exists d' k',
    cdrom_attach 5 attached_device (attached_kernel reports_2048 0%nat 9)
    = Some ((0, d'), k') /\
    heap k' !! 1%positive = Some (ObjParams {| block_shift := 9 |}) /\
    dh_priv d' <> Some 1%positive.
Proof.
  assert (Hrun : exists d' k',
            cdrom_attach 5 attached_device (attached_kernel reports_2048 0%nat 9)
            = Some ((0, d'), k')) by (do 2 eexists; reflexivity).
  destruct Hrun as (d' & k' & Hrun).
  destruct (attach_keeps_previous_record (F := reports_2048) 5 attached_device
              (attached_kernel reports_2048 0%nat 9) d' k' 1%positive
              (ObjParams {| block_shift := 9 |}))
    as (Hold & p & Hp & Hne & _).
  - simpl. lia.
  - simpl. lia.
  - reflexivity.
  - reflexivity.
  - exact Hrun.
  - exists d', k'. split; [exact Hrun|]. split; [exact Hold|].
    rewrite Hp. congruence.
Defined.

Lemma set_block_shift_last_wins_witness :
  exists k1 k2,
    cdrom_set_block_shift some_cmd 12 (attached_kernel reports_2048 0%nat 9)
    = Some (tt, k1) /\
    cdrom_set_block_shift some_cmd 0 k1 = Some (tt, k2) /\
    heap k2 = {[ 1%positive := ObjParams {| block_shift := 11 |} ]}.
Proof.
  destruct (set_block_shift_last_wins (F := reports_2048) some_cmd
              (attached_kernel reports_2048 0%nat 9) 1%positive
              {| block_shift := 9 |} 12 0)
    as (k1 & k2 & k2' & H1 & H2 & H3 & Hheap & _).
  - reflexivity.
  - reflexivity.
  - exists k1, k2. split; [exact H1|]. split; [exact H2|].
    rewrite Hheap. vm_compute in H3. injection H3 as <-. reflexivity.
Defined.

Lemma detach_frame_witness :
  exists k',
    cdrom_detach attached_device (attached_kernel reports_2048 0%nat 11)
    = Some (rom_device, k') /\
    trace k' = [Ev_free 1%positive].
Proof.
  destruct (detach_frame (F := reports_2048) attached_device
              (attached_kernel reports_2048 0%nat 11))
    as (k' & Hrun & _ & Htrace & _).
  - exists {| block_shift := 11 |}. reflexivity.
  - exists k'. split; [exact Hrun|]. apply (Htrace 1%positive). reflexivity.
Defined.

Lemma done_keeps_shifts_nonzero_witness :
  cdrom_done (F := reports_2048) tracking_done some_cmd
    (attached_kernel reports_2048 0%nat 11)
  = tracking_done some_cmd cdrom_set_block_shift
      (attached_kernel reports_2048 0%nat 11) /\
  (forall res k',
     cdrom_done (F := reports_2048) tracking_done some_cmd
       (attached_kernel reports_2048 0%nat 11) = Some (res, k') ->
     shifts_nonzero k').
Proof.
  apply (done_keeps_shifts_nonzero (F := reports_2048) tracking_done some_cmd
           (attached_kernel reports_2048 0%nat 11)).
  - intros I set c k0 Hset HI res k1. unfold tracking_done.
    destruct (set c (bufflen c) k0) as [[[] k2]|] eqn:E; [|discriminate].
    intros H. injection H as _ <-. exact (Hset c (bufflen c) k0 k2 HI E).
  - intros a r Ha. unfold attached_kernel in Ha. cbn [heap] in Ha.
    apply lookup_singleton_Some in Ha as [_ Hr]. injection Hr as <-.
    simpl. lia.
Defined.

Lemma exit_undoes_init_witness :
  cdrom_exit true = [Call_destroy_std_proc; Call_unregister].
Proof.
  rewrite (exit_undoes_init true 0 0); reflexivity.
Defined.
